(** * vcd-cli, [vcd network]: the network command group

    A shallow embedding of [vcd_cli/network.py].  Every command of the file
    has the same shape: click parses the command line according to the
    decorators, then the handler restores the cached session, calls one SDK
    method and prints the result, with the whole handler body wrapped in
    [try ... except Exception as e: stderr(e, ctx)].

    The handlers are written in a small monad [M] that threads the click
    context and a chronological log of everything the command does to its
    collaborators (prompt, session restoration, SDK call, output), so
    that "no remote call", "exactly one remote call" and "nothing on the
    output stream" are statements about that log. *)

From stdpp Require Import base strings list gmap.

Local Open Scope Z_scope.

(** ** Values *)

(** The Python values click hands to a handler: [None], a string, a bool,
    or the tuple of strings of a [multiple=True] option. *)
Inductive PVal :=
| PNone
| PStr (s : string)
| PBool (b : bool)
| PTuple (l : list string).

(** An lxml/objectify element as the SDK returns it: namespace, local tag,
    attributes, children in document order. *)
#[warnings="-register-all"] Inductive Xml :=
| Element (ns tag : string) (attrib : list (string * string)) (children : list Xml).

Definition xml_ns (x : Xml) : string := match x with Element n _ _ _ => n end.
Definition xml_tag (x : Xml) : string := match x with Element _ t _ _ => t end.
Definition xml_attrib (x : Xml) : list (string * string) :=
  match x with Element _ _ a _ => a end.
Definition xml_children (x : Xml) : list Xml :=
  match x with Element _ _ _ c => c end.

(** The authenticated client handle kept in [ctx.obj['client']]. *)
Definition Client := string.

(** The proxy objects a handler builds: [VDC(client, href=...)] and
    [Platform(client)].  Building one contacts nobody. *)
Inductive Target :=
| VDC (client : Client) (href : option string)
| Platform (client : Client).

(** One SDK method call: the receiver, the method name, and the keyword
    arguments in the order the source writes them. *)
Record SdkCall := {
  target : Target;
  method : string;
  kwargs : list (string * PVal) }.

(** Exceptions ([Exception] subclasses).  The first four are the spec's
    error kinds; [UsageError] is click's, raised while parsing. *)
Inductive Usage :=
| MissingParameter (param : string)
| NoSuchOption (opt : string)
| BadOptionUsage (opt : string)
| UnexpectedArgument (value : string).

Inductive Exc :=
| AuthFailure
| NoVdcSelected
| RemoteRejected (message : string)
| ValidationError (message : string)
| AttributeError (name : string)
| KeyError (key : string)
| UsageError (u : Usage).

(** What goes to the output stream: a task element, a message or the list
    of [{'name': ...}] dicts of a list command, given to [stdout]; and the
    help page of a command, which click prints itself. *)
Inductive Out :=
| OutElem (x : Xml)
| OutStr (s : string)
| OutRecords (l : list (gmap string PVal))
| OutHelp.

(** ** The world outside the command *)

(** Everything a command interacts with.  [session_token] and
    [session_profiles] are the persisted session ([None]: nothing to
    restore); [confirm] is the user's answer to a yes/no prompt;
    [sdk_resource] and [sdk_listing] are the SDK methods that return one
    element and a list of elements: each call either returns or raises.
    [help_option_names] is the context setting of that name, which a command
    inherits from the root group [vcd] ([vcd_cli.vcd], not in the source at
    hand; click's own default is [--help] alone). *)
Record World := {
  session_token : option Client;
  session_profiles : gmap string string;
  confirm : string → bool;
  sdk_resource : SdkCall → Exc + Xml;
  sdk_listing : SdkCall → Exc + list Xml;
  help_option_names : list string }.

Inductive Event :=
| EvPrompt (text : string)
| EvRestoreSession (vdc_required : bool)
| EvSdk (c : SdkCall)
| EvStdout (o : Out)
| EvStderr (e : Exc).

(** [ctx.obj] once a session is restored. *)
Record CtxObj := {
  obj_client : Client;
  obj_profiles : gmap string string }.

Record State := {
  ctx_obj : option CtxObj;
  events : list Event }.

Definition initial : State := {| ctx_obj := None; events := [] |}.

(** ** The command monad *)

(** A computation returns, raises a Python exception, or leaves the
    process through [sys.exit(status)], which [except Exception] does not
    catch. *)
Inductive Result (A : Type) :=
| Ret (a : A)
| Raise (e : Exc)
| Exit (status : Z).
Arguments Ret {A} a.
Arguments Raise {A} e.
Arguments Exit {A} status.

Definition M (A : Type) : Type := World → State → Result A * State.

#[global] Instance M_ret : MRet M := λ A a _ s, (Ret a, s).

#[global] Instance M_bind : MBind M := λ A B f m w s,
  match m w s with
  | (Ret a, s') => f a w s'
  | (Raise e, s') => (Raise e, s')
  | (Exit n, s') => (Exit n, s')
  end.

Definition raise {A} (e : Exc) : M A := λ _ s, (Raise e, s).

Definition sys_exit {A} (status : Z) : M A := λ _ s, (Exit status, s).

(** [try: body except Exception as e: handler(e)] *)
Definition try_except (body : M unit) (handler : Exc → M unit) : M unit :=
  λ w s,
  match body w s with
  | (Raise e, s') => handler e w s'
  | r => r
  end.

Definition emit (ev : Event) : M unit :=
  λ _ s, (Ret (), {| ctx_obj := ctx_obj s; events := events s ++ [ev] |}).

Definition world {A} (f : World → A) : M A := λ w s, (Ret (f w), s).

Definition get_ctx_obj : M (option CtxObj) := λ _ s, (Ret (ctx_obj s), s).

Definition set_ctx_obj (o : CtxObj) : M unit :=
  λ _ s, (Ret (), {| ctx_obj := Some o; events := events s |}).

Definition lift {A} (r : Exc + A) : M A :=
  match r with inl e => raise e | inr a => mret a end.

Definition run {A} (m : M A) (w : World) : Result A * State := m w initial.

(** The exit status of the process for a finished command, as click's
    standalone [main] and the interpreter set it: 0 after a normal return,
    the argument of [sys.exit], 2 for a click usage error, 1 for any other
    exception that reaches the top. *)
Definition exit_status (r : Result unit) : Z :=
  match r with
  | Ret _ => 0
  | Exit n => n
  | Raise (UsageError _) => 2
  | Raise _ => 1
  end.

(** ** Reading the log *)

Definition sdk_calls (l : list Event) : list SdkCall :=
  omap (λ ev, match ev with EvSdk c => Some c | _ => None end) l.

Definition stdout_writes (l : list Event) : list Out :=
  omap (λ ev, match ev with EvStdout o => Some o | _ => None end) l.

Definition stderr_writes (l : list Event) : list Exc :=
  omap (λ ev, match ev with EvStderr e => Some e | _ => None end) l.

Definition prompts (l : list Event) : list string :=
  omap (λ ev, match ev with EvPrompt t => Some t | _ => None end) l.

Definition restorations (l : list Event) : list bool :=
  omap (λ ev, match ev with EvRestoreSession b => Some b | _ => None end) l.

(** ** Collaborators that live outside [network.py] *)

(** Modelled from the spec: [vcd_cli.utils.restore_session] is not in the
    source at hand.  The spec gives it as
    [restoreSession(context, requireVdcSelected) -> SessionContext], failing
    with an authentication error when the session cannot be restored and
    with [NoVdcSelected] when a virtual datacenter is required and none is
    selected; it "does not itself contact the remote server".  On success
    [ctx.obj] holds the client and the profiles. *)
Definition restore_session (vdc_required : bool) : M unit :=
  emit (EvRestoreSession vdc_required);;
  token ← world session_token;
  profiles ← world session_profiles;
  match token with
  | None => raise AuthFailure
  | Some client =>
      if vdc_required && bool_decide (profiles !! "vdc_href" = None)
      then raise NoVdcSelected
      else set_ctx_obj {| obj_client := client; obj_profiles := profiles |}
  end.

(** Modelled from the spec: [vcd_cli.utils.stdout] is not in the source at
    hand.  The spec's Output Sink renders a task, a record or a list on
    the success stream. *)
Definition stdout (o : Out) : M unit := emit (EvStdout o).

(** Modelled from the spec: [vcd_cli.utils.stderr] is not in the source at
    hand.  The spec: the failure is converted to a single-line message,
    written to the error stream, and the invocation terminates with a
    non-zero status. *)
Definition stderr (e : Exc) : M unit := emit (EvStderr e);; sys_exit 1.

(** Modelled from the spec: [vcd_cli.vcd.abort_if_false] is not in the
    source at hand.  The spec: a negative answer "aborts with no remote
    call made and a neutral (non-error) exit", "exit 0".  The status is the
    spec's: [network.py] only names the function as the callback of
    [--yes]. *)
Definition abort_if_false (value : bool) : M unit :=
  if value then mret () else sys_exit 0.

(** [pyvcloud.vcd.client.NSMAP['vcloud']] *)
Definition NSMAP_vcloud : string := "http://www.vmware.com/vcloud/v1.5".

(** ** What the handlers do with [ctx] and with the SDK's results *)

(** [ctx.obj['client']] *)
Definition ctx_client : M Client :=
  o ← get_ctx_obj;
  match o with
  | Some c => mret (obj_client c)
  | None => raise (KeyError "client")
  end.

(** [ctx.obj['profiles'].get(key)] *)
Definition ctx_profiles_get (key : string) : M (option string) :=
  o ← get_ctx_obj;
  match o with
  | Some c => mret (obj_profiles c !! key)
  | None => raise (KeyError "profiles")
  end.

Definition call_resource (c : SdkCall) : M Xml :=
  emit (EvSdk c);; r ← world (λ w, sdk_resource w c); lift r.

Definition call_listing (c : SdkCall) : M (list Xml) :=
  emit (EvSdk c);; r ← world (λ w, sdk_listing w c); lift r.

Definition find_child (ns tag : string) (x : Xml) : option Xml :=
  find (λ c, String.eqb (xml_ns c) ns && String.eqb (xml_tag c) tag)
       (xml_children x).

(** [x.Name]: objectify's attribute access, the first child called [Name]
    in the namespace of [x]; [AttributeError] when there is none. *)
Definition getattr (x : Xml) (name : string) : Exc + Xml :=
  match find_child (xml_ns x) name x with
  | Some c => inr c
  | None => inl (AttributeError name)
  end.

(** [x['{ns}Name']]: the first child with that qualified name. *)
Definition getitem (x : Xml) (ns name : string) : Exc + Xml :=
  match find_child ns name x with
  | Some c => inr c
  | None => inl (AttributeError name)
  end.

(** [result.Tasks.Task[0]] *)
Definition Tasks_Task_0 (result : Xml) : Exc + Xml :=
  match getattr result "Tasks" with
  | inl e => inl e
  | inr tasks => getattr tasks "Task"
  end.

(** [ext_net['{' + NSMAP['vcloud'] + '}Tasks'].Task[0]] *)
Definition vcloud_Tasks_Task_0 (ext_net : Xml) : Exc + Xml :=
  match getitem ext_net NSMAP_vcloud "Tasks" with
  | inl e => inl e
  | inr tasks => getattr tasks "Task"
  end.

(** [net.get('name')] *)
Definition xml_get (x : Xml) (key : string) : PVal :=
  match find (λ kv, String.eqb (fst kv) key) (xml_attrib x) with
  | Some kv => PStr (snd kv)
  | None => PNone
  end.

(** [result = []; for net in nets: result.append({'name': net.get('name')})] *)
Fixpoint name_records (nets : list Xml) : list (gmap string PVal) :=
  match nets with
  | [] => []
  | net :: rest => {[ "name" := xml_get net "name" ]} :: name_records rest
  end.

(** ** The handlers *)

(** [create_direct_network(ctx, name, parent_network_name, description,
    is_shared)] *)
Definition create_direct_network
    (name parent_network_name description is_shared : PVal) : M unit :=
  try_except
    (restore_session true;;
     client ← ctx_client;
     in_use_vdc_href ← ctx_profiles_get "vdc_href";
     let vdc := VDC client in_use_vdc_href in
     result ← call_resource
       {| target := vdc;
          method := "create_directly_connected_vdc_network";
          kwargs := [("network_name", name);
                     ("parent_network_name", parent_network_name);
                     ("description", description);
                     ("is_shared", is_shared)] |};
     task ← lift (Tasks_Task_0 result);
     stdout (OutElem task))
    (λ e, stderr e).

(** [create_isolated_network(ctx, name, gateway_ip, netmask, ...)] *)
Definition create_isolated_network
    (name gateway_ip netmask description primary_dns_ip secondary_dns_ip
     dns_suffix ip_range_start ip_range_end is_dhcp_enabled
     default_lease_time max_lease_time dhcp_ip_range_start
     dhcp_ip_range_end is_shared : PVal) : M unit :=
  try_except
    (restore_session true;;
     client ← ctx_client;
     in_use_vdc_href ← ctx_profiles_get "vdc_href";
     let vdc := VDC client in_use_vdc_href in
     result ← call_resource
       {| target := vdc;
          method := "create_isolated_vdc_network";
          kwargs := [("network_name", name);
                     ("gateway_ip", gateway_ip);
                     ("netmask", netmask);
                     ("description", description);
                     ("primary_dns_ip", primary_dns_ip);
                     ("secondary_dns_ip", secondary_dns_ip);
                     ("dns_suffix", dns_suffix);
                     ("ip_range_start", ip_range_start);
                     ("ip_range_end", ip_range_end);
                     ("is_dhcp_enabled", is_dhcp_enabled);
                     ("default_lease_time", default_lease_time);
                     ("max_lease_time", max_lease_time);
                     ("dhcp_ip_range_start", dhcp_ip_range_start);
                     ("dhcp_ip_range_end", dhcp_ip_range_end);
                     ("is_shared", is_shared)] |};
     task ← lift (Tasks_Task_0 result);
     stdout (OutElem task))
    (λ e, stderr e).

(** [create_external_network(ctx, name, vc_name, port_group, ...)] *)
Definition create_external_network
    (name vc_name port_group gateway_ip netmask ip_range description
     primary_dns_ip secondary_dns_ip dns_suffix : PVal) : M unit :=
  try_except
    (restore_session false;;
     client ← ctx_client;
     let platform := Platform client in
     ext_net ← call_resource
       {| target := platform;
          method := "create_external_network";
          kwargs := [("name", name);
                     ("vim_server_name", vc_name);
                     ("port_group_names", port_group);
                     ("gateway_ip", gateway_ip);
                     ("netmask", netmask);
                     ("ip_ranges", ip_range);
                     ("description", description);
                     ("primary_dns_ip", primary_dns_ip);
                     ("secondary_dns_ip", secondary_dns_ip);
                     ("dns_suffix", dns_suffix)] |};
     task ← lift (vcloud_Tasks_Task_0 ext_net);
     stdout (OutElem task);;
     stdout (OutStr "External network created successfully."))
    (λ e, stderr e).

(** [list_external_networks(ctx)] *)
Definition list_external_networks : M unit :=
  try_except
    (restore_session false;;
     client ← ctx_client;
     let platform := Platform client in
     ext_nets ← call_listing
       {| target := platform;
          method := "list_external_networks";
          kwargs := [] |};
     let result := name_records ext_nets in
     stdout (OutRecords result))
    (λ e, stderr e).

(** [list_direct_networks(ctx)] *)
Definition list_direct_networks : M unit :=
  try_except
    (restore_session true;;
     client ← ctx_client;
     in_use_vdc_href ← ctx_profiles_get "vdc_href";
     let vdc := VDC client in_use_vdc_href in
     direct_nets ← call_listing
       {| target := vdc;
          method := "list_orgvdc_direct_networks";
          kwargs := [] |};
     let result := name_records direct_nets in
     stdout (OutRecords result))
    (λ e, stderr e).

(** [list_isolated_networks(ctx)] *)
Definition list_isolated_networks : M unit :=
  try_except
    (restore_session true;;
     client ← ctx_client;
     in_use_vdc_href ← ctx_profiles_get "vdc_href";
     let vdc := VDC client in_use_vdc_href in
     isolated_nets ← call_listing
       {| target := vdc;
          method := "list_orgvdc_isolated_networks";
          kwargs := [] |};
     let result := name_records isolated_nets in
     stdout (OutRecords result))
    (λ e, stderr e).

(** [delete_direct_networks(ctx, name, force)] *)
Definition delete_direct_networks (name force : PVal) : M unit :=
  try_except
    (restore_session true;;
     client ← ctx_client;
     in_use_vdc_href ← ctx_profiles_get "vdc_href";
     let vdc := VDC client in_use_vdc_href in
     delete_task ← call_resource
       {| target := vdc;
          method := "delete_direct_orgvdc_network";
          kwargs := [("name", name); ("force", force)] |};
     stdout (OutElem delete_task))
    (λ e, stderr e).

(** [delete_isolated_networks(ctx, name, force)] *)
Definition delete_isolated_networks (name force : PVal) : M unit :=
  try_except
    (restore_session true;;
     client ← ctx_client;
     in_use_vdc_href ← ctx_profiles_get "vdc_href";
     let vdc := VDC client in_use_vdc_href in
     delete_task ← call_resource
       {| target := vdc;
          method := "delete_isolated_orgvdc_network";
          kwargs := [("name", name); ("force", force)] |};
     stdout (OutElem delete_task))
    (λ e, stderr e).

(** [delete_external_network(ctx, name)] *)
Definition delete_external_network (name : PVal) : M unit :=
  try_except
    (restore_session false;;
     client ← ctx_client;
     let platform := Platform client in
     task ← call_resource
       {| target := platform;
          method := "delete_external_network";
          kwargs := [("name", name)] |};
     stdout (OutElem task);;
     stdout (OutStr "External network deleted successfully."))
    (λ e, stderr e).

(** [update_external_network(ctx, name, new_name, new_description)] *)
Definition update_external_network
    (name new_name new_description : PVal) : M unit :=
  try_except
    (restore_session false;;
     client ← ctx_client;
     let platform := Platform client in
     ext_net ← call_resource
       {| target := platform;
          method := "update_external_network";
          kwargs := [("name", name);
                     ("new_name", new_name);
                     ("new_description", new_description)] |};
     task ← lift (vcloud_Tasks_Task_0 ext_net);
     stdout (OutElem task);;
     stdout (OutStr "External network updated successfully."))
    (λ e, stderr e).

(** ** click: the decorators *)

(** A command line as click's tokenizer sees it: positional words, options
    with a value ([--parent ext-net1], [-p ext-net1], [--parent=ext-net1]),
    and options given bare ([--yes], [--not-shared]). *)
Inductive Token :=
| Positional (value : string)
| OptValue (opt value : string)
| OptFlag (opt : string).

(** The parameter declarations in use in this file:
    - [@click.argument(dest)], one word, required unless stated;
    - [@click.option] with names [opts], [dest], [required=], [multiple=], [default=], an option
      with a string value;
    - [@click.option('on/off', dest, is_flag=True, default=, prompt=,
      callback=, expose_value=)], a boolean flag. *)
Inductive Param :=
| ClickArgument (dest : string) (required : bool)
| ClickOption (opts : list string) (dest : string)
              (required multiple : bool) (default : PVal)
| ClickFlag (on off : list string) (dest : string) (default : bool)
            (prompt : option string) (callback : option (bool → M unit))
            (expose_value : bool).

Definition named (opts : list string) (opt : string) : bool :=
  existsb (String.eqb opt) opts.

Definition positionals (cl : list Token) : list string :=
  omap (λ t, match t with Positional v => Some v | _ => None end) cl.

(** The values given to an option, in command-line order, whichever of its
    names was used. *)
Definition option_values (opts : list string) (cl : list Token) : list string :=
  omap (λ t, match t with
             | OptValue o v => if named opts o then Some v else None
             | _ => None
             end) cl.

(** The settings of a flag, in command-line order. *)
Definition flag_values (on off : list string) (cl : list Token) : list bool :=
  omap (λ t, match t with
             | OptFlag o => if named on o then Some true
                            else if named off o then Some false else None
             | _ => None
             end) cl.

Definition takes_value (opt : string) (p : Param) : bool :=
  match p with
  | ClickOption opts _ _ _ _ => named opts opt
  | _ => false
  end.

Definition is_flag (opt : string) (p : Param) : bool :=
  match p with
  | ClickFlag on off _ _ _ _ _ => named on opt || named off opt
  | _ => false
  end.

(** The tokenizer rejects an option the command does not declare, a value
    option without its value and a flag with one, at the first such
    token. *)
Fixpoint check_tokens (params : list Param) (cl : list Token) : Exc + unit :=
  match cl with
  | [] => inr ()
  | Positional _ :: rest => check_tokens params rest
  | OptValue o _ :: rest =>
      if existsb (takes_value o) params then check_tokens params rest
      else if existsb (is_flag o) params then inl (UsageError (BadOptionUsage o))
      else inl (UsageError (NoSuchOption o))
  | OptFlag o :: rest =>
      if existsb (is_flag o) params then check_tokens params rest
      else if existsb (takes_value o) params then inl (UsageError (BadOptionUsage o))
      else inl (UsageError (NoSuchOption o))
  end.

(** click's [Parameter.value_is_missing]: [None], or [()] for a
    [multiple] option. *)
Definition value_is_missing (multiple : bool) (v : PVal) : bool :=
  match v with
  | PNone => true
  | PTuple [] => multiple
  | _ => false
  end.

(** The value of a string option: every given value as a tuple when
    [multiple], else the last one given; the default when none was. *)
Definition option_value (multiple : bool) (default : PVal) (given : list string) : PVal :=
  if multiple
  then match given with [] => default | _ => PTuple given end
  else match last given with Some v => PStr v | None => default end.

(** The value of a flag: its last setting on the command line; when it was
    not given, the answer to its prompt if it has one ([click.confirm]),
    else its default. *)
Definition default_flag (default : bool) (given : list bool) : bool :=
  match last given with Some b => b | None => default end.

Definition flag_value (default : bool) (prompt : option string) (given : list bool) : M bool :=
  match last given with
  | Some b => mret b
  | None =>
      match prompt with
      | Some text => emit (EvPrompt text);; world (λ w, confirm w text)
      | None => mret default
      end
  end.

(** Parameters are processed one after the other, each adding to
    [ctx.params] (here [kw], in insertion order): value from the command
    line, default or prompt, the [required] check, the callback, and the
    value is stored under [dest] unless [expose_value=False].  Leftover
    positional words are rejected after the last parameter.  (click takes
    the parameters given on the command line first; a given parameter of
    this file neither fails nor prompts, so declaration order yields the same
    outcome.) *)
Fixpoint process (params : list Param) (cl : list Token) (args : list string)
    (kw : list (string * PVal)) : M (list (string * PVal)) :=
  match params with
  | [] =>
      match args with
      | [] => mret kw
      | a :: _ => raise (UsageError (UnexpectedArgument a))
      end
  | ClickArgument dest required :: rest =>
      match args with
      | a :: args' => process rest cl args' (kw ++ [(dest, PStr a)])
      | [] =>
          if required then raise (UsageError (MissingParameter dest))
          else process rest cl [] (kw ++ [(dest, PNone)])
      end
  | ClickOption opts dest required multiple default :: rest =>
      let value := option_value multiple default (option_values opts cl) in
      if required && value_is_missing multiple value
      then raise (UsageError (MissingParameter dest))
      else process rest cl args (kw ++ [(dest, value)])
  | ClickFlag on off dest default prompt callback expose_value :: rest =>
      value ← flag_value default prompt (flag_values on off cl);
      match callback with Some cb => cb value | None => mret () end;;
      process rest cl args
        (if expose_value then kw ++ [(dest, PBool value)] else kw)
  end.

(** The callback of click's help option: print the help page and leave
    with [ctx.exit()], status 0. *)
Definition show_help (value : bool) : M unit :=
  if value then emit (EvStdout OutHelp);; sys_exit 0 else mret ().

(** The names of the help option of a command: the context's
    [help_option_names] that no declared parameter uses. *)
Definition help_names (params : list Param) (names : list string) : list string :=
  List.filter
    (λ n, negb (existsb (takes_value n) params || existsb (is_flag n) params))
    names.

(** The help option click adds to every command: an eager flag that is not
    exposed. *)
Definition help_option (names : list string) : Param :=
  ClickFlag names [] "help" false None (Some show_help) false.

(** [Command.parse_args]: the resulting [ctx.params].  The tokenizer knows
    the declared parameters and the help option; the help option is eager,
    so it is processed before every declared parameter. *)
Definition click_parse (params : list Param) (cl : list Token)
  : M (list (string * PVal)) :=
  names ← world help_option_names;
  let help := help_option (help_names params names) in
  lift (check_tokens (params ++ [help]) cl);;
  process [help] cl [] [];;
  process params cl (positionals cl) [].

(** The keyword argument [dest] when the handler is called with
    [ctx.params] as its keyword arguments. *)
Fixpoint kwarg (kw : list (string * PVal)) (dest : string) : PVal :=
  match kw with
  | [] => PNone
  | (k, v) :: rest => if String.eqb k dest then v else kwarg rest dest
  end.

(** ** The commands: decorators and handler together *)

Definition create_direct_network_params : list Param :=
  [ ClickArgument "name" true;
    ClickOption ["-p"; "--parent"] "parent_network_name" true false PNone;
    ClickOption ["-d"; "--description"] "description" false false (PStr EmptyString);
    ClickFlag ["-s"; "--shared"] ["-n"; "--not-shared"] "is_shared" false
              None None true ].

Definition direct_create (cl : list Token) : M unit :=
  kw ← click_parse create_direct_network_params cl;
  create_direct_network (kwarg kw "name") (kwarg kw "parent_network_name")
    (kwarg kw "description") (kwarg kw "is_shared").

Definition create_isolated_network_params : list Param :=
  [ ClickArgument "name" true;
    ClickOption ["-g"; "--gateway"] "gateway_ip" true false PNone;
    ClickOption ["-n"; "--netmask"] "netmask" true false PNone;
    ClickOption ["-d"; "--description"] "description" false false (PStr EmptyString);
    ClickOption ["--dns1"] "primary_dns_ip" false false PNone;
    ClickOption ["--dns2"] "secondary_dns_ip" false false PNone;
    ClickOption ["--dns-suffix"] "dns_suffix" false false PNone;
    ClickOption ["--ip-range-start"] "ip_range_start" false false PNone;
    ClickOption ["--ip-range-end"] "ip_range_end" false false PNone;
    ClickFlag ["--dhcp-enabled"] ["--dhcp-disabled"] "is_dhcp_enabled" false
              None None true;
    ClickOption ["--default-lease-time"] "default_lease_time" false false PNone;
    ClickOption ["--max-lease-time"] "max_lease_time" false false PNone;
    ClickOption ["--dhcp-ip-range-start"] "dhcp_ip_range_start" false false PNone;
    ClickOption ["--dhcp-ip-range-end"] "dhcp_ip_range_end" false false PNone;
    ClickFlag ["--shared"] ["--not-shared"] "is_shared" false None None true ].

Definition isolated_create (cl : list Token) : M unit :=
  kw ← click_parse create_isolated_network_params cl;
  create_isolated_network (kwarg kw "name") (kwarg kw "gateway_ip")
    (kwarg kw "netmask") (kwarg kw "description") (kwarg kw "primary_dns_ip")
    (kwarg kw "secondary_dns_ip") (kwarg kw "dns_suffix")
    (kwarg kw "ip_range_start") (kwarg kw "ip_range_end")
    (kwarg kw "is_dhcp_enabled") (kwarg kw "default_lease_time")
    (kwarg kw "max_lease_time") (kwarg kw "dhcp_ip_range_start")
    (kwarg kw "dhcp_ip_range_end") (kwarg kw "is_shared").

Definition create_external_network_params : list Param :=
  [ ClickArgument "name" true;
    ClickArgument "vc_name" true;
    ClickOption ["-p"; "--port-group"] "port_group" true true (PTuple []);
    ClickOption ["-g"; "--gateway"] "gateway_ip" true false PNone;
    ClickOption ["-n"; "--netmask"] "netmask" true false PNone;
    ClickOption ["-i"; "--ip-range"] "ip_range" true true (PTuple []);
    ClickOption ["-d"; "--description"] "description" false false (PStr EmptyString);
    ClickOption ["--dns1"] "primary_dns_ip" false false PNone;
    ClickOption ["--dns2"] "secondary_dns_ip" false false PNone;
    ClickOption ["--dns-suffix"] "dns_suffix" false false PNone ].

Definition external_create (cl : list Token) : M unit :=
  kw ← click_parse create_external_network_params cl;
  create_external_network (kwarg kw "name") (kwarg kw "vc_name")
    (kwarg kw "port_group") (kwarg kw "gateway_ip") (kwarg kw "netmask")
    (kwarg kw "ip_range") (kwarg kw "description") (kwarg kw "primary_dns_ip")
    (kwarg kw "secondary_dns_ip") (kwarg kw "dns_suffix").

Definition external_list (cl : list Token) : M unit :=
  click_parse [] cl;; list_external_networks.

Definition direct_list (cl : list Token) : M unit :=
  click_parse [] cl;; list_direct_networks.

Definition isolated_list (cl : list Token) : M unit :=
  click_parse [] cl;; list_isolated_networks.

Definition delete_prompt : string :=
  "Are you sure you want to delete the OrgVdc Network?".

(** [delete_direct_networks] and [delete_isolated_networks] carry the same
    decorators. *)
Definition delete_orgvdc_network_params : list Param :=
  [ ClickArgument "name" true;
    ClickFlag ["-f"; "--force"] [] "force" false None None true;
    ClickFlag ["-y"; "--yes"] [] "yes" false
              (Some delete_prompt) (Some abort_if_false) false ].

Definition direct_delete (cl : list Token) : M unit :=
  kw ← click_parse delete_orgvdc_network_params cl;
  delete_direct_networks (kwarg kw "name") (kwarg kw "force").

Definition isolated_delete (cl : list Token) : M unit :=
  kw ← click_parse delete_orgvdc_network_params cl;
  delete_isolated_networks (kwarg kw "name") (kwarg kw "force").

Definition delete_external_network_params : list Param :=
  [ ClickArgument "name" true ].

Definition external_delete (cl : list Token) : M unit :=
  kw ← click_parse delete_external_network_params cl;
  delete_external_network (kwarg kw "name").

Definition update_external_network_params : list Param :=
  [ ClickArgument "name" true;
    ClickOption ["-n"; "--name"] "new_name" false false PNone;
    ClickOption ["-d"; "--description"] "new_description" false false PNone ].

Definition external_update (cl : list Token) : M unit :=
  kw ← click_parse update_external_network_params cl;
  update_external_network (kwarg kw "name") (kwarg kw "new_name")
    (kwarg kw "new_description").

(** The command groups under [vcd network], and their [create], [list] and
    [delete] commands. *)
Inductive Group := external | direct | isolated.

Definition create_params (g : Group) : list Param :=
  match g with
  | external => create_external_network_params
  | direct => create_direct_network_params
  | isolated => create_isolated_network_params
  end.

Definition create_command (g : Group) : list Token → M unit :=
  match g with
  | external => external_create
  | direct => direct_create
  | isolated => isolated_create
  end.

Definition list_command (g : Group) : list Token → M unit :=
  match g with
  | external => external_list
  | direct => direct_list
  | isolated => isolated_list
  end.

Definition delete_command (g : Group) : list Token → M unit :=
  match g with
  | external => external_delete
  | direct => direct_delete
  | isolated => isolated_delete
  end.

(** ** The leaf operations *)

(** The ten handlers of the file, at any arguments. *)
Inductive leaf_operation : M unit → Prop :=
| op_direct_create name parent description is_shared :
    leaf_operation (create_direct_network name parent description is_shared)
| op_isolated_create name gw mask descr dns1 dns2 suffix rs re dhcp dl ml ds de sh :
    leaf_operation (create_isolated_network name gw mask descr dns1 dns2
                      suffix rs re dhcp dl ml ds de sh)
| op_external_create name vc pg gw mask ranges descr dns1 dns2 suffix :
    leaf_operation (create_external_network name vc pg gw mask ranges descr
                      dns1 dns2 suffix)
| op_external_list : leaf_operation list_external_networks
| op_direct_list : leaf_operation list_direct_networks
| op_isolated_list : leaf_operation list_isolated_networks
| op_direct_delete name force :
    leaf_operation (delete_direct_networks name force)
| op_isolated_delete name force :
    leaf_operation (delete_isolated_networks name force)
| op_external_delete name : leaf_operation (delete_external_network name)
| op_external_update name new_name new_description :
    leaf_operation (update_external_network name new_name new_description).

(** The six handlers that work inside the selected virtual datacenter. *)
Inductive vdc_scoped : M unit → Prop :=
| vs_direct_create name parent description is_shared :
    vdc_scoped (create_direct_network name parent description is_shared)
| vs_isolated_create name gw mask descr dns1 dns2 suffix rs re dhcp dl ml ds de sh :
    vdc_scoped (create_isolated_network name gw mask descr dns1 dns2
                  suffix rs re dhcp dl ml ds de sh)
| vs_direct_list : vdc_scoped list_direct_networks
| vs_isolated_list : vdc_scoped list_isolated_networks
| vs_direct_delete name force : vdc_scoped (delete_direct_networks name force)
| vs_isolated_delete name force : vdc_scoped (delete_isolated_networks name force).

(** In the log, every write to the output stream comes after an SDK call. *)
Fixpoint output_follows_call (called : bool) (l : list Event) : bool :=
  match l with
  | [] => true
  | EvSdk _ :: rest => output_follows_call true rest
  | EvStdout _ :: rest => called && output_follows_call called rest
  | _ :: rest => output_follows_call called rest
  end.

(** ** Worlds to run the commands in *)

Definition a_task : Xml :=
  Element NSMAP_vcloud "Task" [("operationName", "networkCreateNetwork")] [].

Definition a_network : Xml :=
  Element NSMAP_vcloud "OrgVdcNetwork" [("name", "net1")]
          [Element NSMAP_vcloud "Tasks" [] [a_task]].

Definition two_networks : list Xml :=
  [Element NSMAP_vcloud "OrgVdcNetwork" [("name", "a")] [];
   Element NSMAP_vcloud "OrgVdcNetwork" [("name", "b")] []].

(** A restored session with a selected virtual datacenter, a user who
    answers yes, and a server that accepts everything. *)
Definition w_ok : World :=
  {| session_token := Some "token";
     session_profiles := {[ "vdc_href" := "https://vcd/api/vdc/1" ]};
     confirm := λ _, true;
     sdk_resource := λ _, inr a_network;
     sdk_listing := λ _, inr two_networks;
     help_option_names := ["-h"; "--help"] |}.

(** The same session with no virtual datacenter selected. *)
Definition w_no_vdc : World :=
  {| session_token := Some "token";
     session_profiles := ∅;
     confirm := λ _, true;
     sdk_resource := sdk_resource w_ok;
     sdk_listing := sdk_listing w_ok;
     help_option_names := help_option_names w_ok |}.

(** The session of [w_ok] with a user who answers no. *)
Definition w_decline : World :=
  {| session_token := session_token w_ok;
     session_profiles := session_profiles w_ok;
     confirm := λ _, false;
     sdk_resource := sdk_resource w_ok;
     sdk_listing := sdk_listing w_ok;
     help_option_names := help_option_names w_ok |}.

(** The session of [w_ok] with a server that rejects everything. *)
Definition w_rejecting : World :=
  {| session_token := session_token w_ok;
     session_profiles := session_profiles w_ok;
     confirm := λ _, true;
     sdk_resource := λ _, inl (RemoteRejected "conflict");
     sdk_listing := λ _, inl (RemoteRejected "conflict");
     help_option_names := help_option_names w_ok |}.

(** ** What the commands are expected to send *)

(** [ctx.params] for an accepted [create] command line, read off the
    command line parameter by parameter. *)
Definition create_kwargs (g : Group) (cl : list Token) : list (string * PVal) :=
  let arg i := match positionals cl !! i with Some a => PStr a | None => PNone end in
  let opt opts := option_value false PNone (option_values opts cl) in
  let description :=
    option_value false (PStr EmptyString) (option_values ["-d"; "--description"] cl) in
  match g with
  | external =>
      [("name", arg 0%nat); ("vc_name", arg 1%nat);
       ("port_group", PTuple (option_values ["-p"; "--port-group"] cl));
       ("gateway_ip", opt ["-g"; "--gateway"]);
       ("netmask", opt ["-n"; "--netmask"]);
       ("ip_range", PTuple (option_values ["-i"; "--ip-range"] cl));
       ("description", description);
       ("primary_dns_ip", opt ["--dns1"]);
       ("secondary_dns_ip", opt ["--dns2"]);
       ("dns_suffix", opt ["--dns-suffix"])]
  | direct =>
      [("name", arg 0%nat);
       ("parent_network_name", opt ["-p"; "--parent"]);
       ("description", description);
       ("is_shared", PBool (default_flag false
          (flag_values ["-s"; "--shared"] ["-n"; "--not-shared"] cl)))]
  | isolated =>
      [("name", arg 0%nat);
       ("gateway_ip", opt ["-g"; "--gateway"]);
       ("netmask", opt ["-n"; "--netmask"]);
       ("description", description);
       ("primary_dns_ip", opt ["--dns1"]);
       ("secondary_dns_ip", opt ["--dns2"]);
       ("dns_suffix", opt ["--dns-suffix"]);
       ("ip_range_start", opt ["--ip-range-start"]);
       ("ip_range_end", opt ["--ip-range-end"]);
       ("is_dhcp_enabled", PBool (default_flag false
          (flag_values ["--dhcp-enabled"] ["--dhcp-disabled"] cl)));
       ("default_lease_time", opt ["--default-lease-time"]);
       ("max_lease_time", opt ["--max-lease-time"]);
       ("dhcp_ip_range_start", opt ["--dhcp-ip-range-start"]);
       ("dhcp_ip_range_end", opt ["--dhcp-ip-range-end"]);
       ("is_shared", PBool (default_flag false
          (flag_values ["--shared"] ["--not-shared"] cl)))]
  end.

(** The request a [create] command is to send for the parameters [kw]:
    each field of the payload is the parameter of the same meaning. *)
Definition create_request (g : Group) (client : Client) (href : option string)
    (kw : list (string * PVal)) : SdkCall :=
  match g with
  | external =>
      {| target := Platform client;
         method := "create_external_network";
         kwargs := [("name", kwarg kw "name");
                    ("vim_server_name", kwarg kw "vc_name");
                    ("port_group_names", kwarg kw "port_group");
                    ("gateway_ip", kwarg kw "gateway_ip");
                    ("netmask", kwarg kw "netmask");
                    ("ip_ranges", kwarg kw "ip_range");
                    ("description", kwarg kw "description");
                    ("primary_dns_ip", kwarg kw "primary_dns_ip");
                    ("secondary_dns_ip", kwarg kw "secondary_dns_ip");
                    ("dns_suffix", kwarg kw "dns_suffix")] |}
  | direct =>
      {| target := VDC client href;
         method := "create_directly_connected_vdc_network";
         kwargs := [("network_name", kwarg kw "name");
                    ("parent_network_name", kwarg kw "parent_network_name");
                    ("description", kwarg kw "description");
                    ("is_shared", kwarg kw "is_shared")] |}
  | isolated =>
      {| target := VDC client href;
         method := "create_isolated_vdc_network";
         kwargs := [("network_name", kwarg kw "name");
                    ("gateway_ip", kwarg kw "gateway_ip");
                    ("netmask", kwarg kw "netmask");
                    ("description", kwarg kw "description");
                    ("primary_dns_ip", kwarg kw "primary_dns_ip");
                    ("secondary_dns_ip", kwarg kw "secondary_dns_ip");
                    ("dns_suffix", kwarg kw "dns_suffix");
                    ("ip_range_start", kwarg kw "ip_range_start");
                    ("ip_range_end", kwarg kw "ip_range_end");
                    ("is_dhcp_enabled", kwarg kw "is_dhcp_enabled");
                    ("default_lease_time", kwarg kw "default_lease_time");
                    ("max_lease_time", kwarg kw "max_lease_time");
                    ("dhcp_ip_range_start", kwarg kw "dhcp_ip_range_start");
                    ("dhcp_ip_range_end", kwarg kw "dhcp_ip_range_end");
                    ("is_shared", kwarg kw "is_shared")] |}
  end.

(** The settings of the [shared] flag on a [create] command line. *)
Definition shared_given (g : Group) (cl : list Token) : list bool :=
  match g with
  | direct => flag_values ["-s"; "--shared"] ["-n"; "--not-shared"] cl
  | _ => flag_values ["--shared"] ["--not-shared"] cl
  end.

(** A session that restores for group [g]: a token, and a selected
    datacenter unless the group is [external]. *)
Definition session_for (g : Group) (w : World) (client : Client) : Prop :=
  session_token w = Some client ∧
  (g ≠ external → is_Some (session_profiles w !! "vdc_href")).

Definition two_ranges : list Token :=
  [Positional "external-net1"; Positional "vc1";
   OptValue "--port-group" "pg1"; OptValue "-p" "pg2";
   OptValue "--gateway" "10.0.0.1"; OptValue "--netmask" "255.255.255.0";
   OptValue "--ip-range" "10.0.0.2-10.0.0.9";
   OptValue "--ip-range" "10.0.0.20-10.0.0.29"].

(** The SDK call of a [list] command. *)
Definition list_request (g : Group) (client : Client) (href : option string) : SdkCall :=
  match g with
  | external =>
      {| target := Platform client; method := "list_external_networks";
         kwargs := [] |}
  | direct =>
      {| target := VDC client href; method := "list_orgvdc_direct_networks";
         kwargs := [] |}
  | isolated =>
      {| target := VDC client href; method := "list_orgvdc_isolated_networks";
         kwargs := [] |}
  end.

(** [ctx.params] of [direct delete] and [isolated delete]: [yes] is not
    exposed. *)
Definition delete_kwargs (n : string) (cl : list Token) : list (string * PVal) :=
  [("name", PStr n);
   ("force", PBool (default_flag false (flag_values ["-f"; "--force"] [] cl)))].

Definition prompted : State :=
  {| ctx_obj := None; events := [EvPrompt delete_prompt] |}.

(** The SDK call of a [delete] command. *)
Definition delete_request (g : Group) (client : Client) (href : option string)
    (name force : PVal) : SdkCall :=
  match g with
  | external =>
      {| target := Platform client; method := "delete_external_network";
         kwargs := [("name", name)] |}
  | direct =>
      {| target := VDC client href; method := "delete_direct_orgvdc_network";
         kwargs := [("name", name); ("force", force)] |}
  | isolated =>
      {| target := VDC client href; method := "delete_isolated_orgvdc_network";
         kwargs := [("name", name); ("force", force)] |}
  end.

(** ** More vocabulary for the handlers *)

(** The four handlers that work on the platform, outside any datacenter. *)
Inductive platform_scoped : M unit → Prop :=
| ps_external_create name vc pg gw mask ranges descr dns1 dns2 suffix :
    platform_scoped (create_external_network name vc pg gw mask ranges descr
                       dns1 dns2 suffix)
| ps_external_list : platform_scoped list_external_networks
| ps_external_delete name : platform_scoped (delete_external_network name)
| ps_external_update name new_name new_description :
    platform_scoped (update_external_network name new_name new_description).

(** The handlers that print the first task of the SDK's result, with what
    they print once they have it. *)
Inductive reads_task : M unit → (Xml → Exc + Xml) → (Xml → list Out) → Prop :=
| rt_direct_create name parent description is_shared :
    reads_task (create_direct_network name parent description is_shared)
      Tasks_Task_0 (λ task, [OutElem task])
| rt_isolated_create name gw mask descr dns1 dns2 suffix rs re dhcp dl ml ds de sh :
    reads_task (create_isolated_network name gw mask descr dns1 dns2
                  suffix rs re dhcp dl ml ds de sh)
      Tasks_Task_0 (λ task, [OutElem task])
| rt_external_create name vc pg gw mask ranges descr dns1 dns2 suffix :
    reads_task (create_external_network name vc pg gw mask ranges descr
                  dns1 dns2 suffix)
      vcloud_Tasks_Task_0
      (λ task, [OutElem task; OutStr "External network created successfully."])
| rt_external_update name new_name new_description :
    reads_task (update_external_network name new_name new_description)
      vcloud_Tasks_Task_0
      (λ task, [OutElem task; OutStr "External network updated successfully."]).

(** The delete handlers, with what they print for the SDK's result. *)
Inductive prints_result : M unit → (Xml → list Out) → Prop :=
| pr_direct_delete name force :
    prints_result (delete_direct_networks name force) (λ x, [OutElem x])
| pr_isolated_delete name force :
    prints_result (delete_isolated_networks name force) (λ x, [OutElem x])
| pr_external_delete name :
    prints_result (delete_external_network name)
      (λ x, [OutElem x; OutStr "External network deleted successfully."]).

(** A session with a token and a selected datacenter: it restores for every
    command. *)
Definition session_ok (w : World) (client : Client) (href : string) : Prop :=
  session_token w = Some client ∧ session_profiles w !! "vdc_href" = Some href.

(** The number of positional words a [create] command takes, and the
    options it requires. *)
Definition create_arity (g : Group) : nat :=
  match g with external => 2%nat | _ => 1%nat end.

Definition create_required (g : Group) : list (list string) :=
  match g with
  | external => [["-p"; "--port-group"]; ["-g"; "--gateway"];
                 ["-n"; "--netmask"]; ["-i"; "--ip-range"]]
  | direct => [["-p"; "--parent"]]
  | isolated => [["-g"; "--gateway"]; ["-n"; "--netmask"]]
  end.

(** The SDK call of [external update]. *)
Definition update_request (client : Client) (n : string) (cl : list Token) : SdkCall :=
  {| target := Platform client;
     method := "update_external_network";
     kwargs := [("name", PStr n);
                ("new_name",
                 option_value false PNone (option_values ["-n"; "--name"] cl));
                ("new_description",
                 option_value false PNone
                   (option_values ["-d"; "--description"] cl))] |}.

(** No session to restore. *)
Definition w_no_session : World :=
  {| session_token := None;
     session_profiles := ∅;
     confirm := λ _, true;
     sdk_resource := sdk_resource w_ok;
     sdk_listing := sdk_listing w_ok;
     help_option_names := help_option_names w_ok |}.

(** The session of [w_ok] with a server that answers with a bare element,
    without tasks. *)
Definition bare_network : Xml :=
  Element NSMAP_vcloud "OrgVdcNetwork" [("name", "net1")] [].

Definition w_no_task : World :=
  {| session_token := session_token w_ok;
     session_profiles := session_profiles w_ok;
     confirm := λ _, true;
     sdk_resource := λ _, inr bare_network;
     sdk_listing := sdk_listing w_ok;
     help_option_names := help_option_names w_ok |}.

(** The options of a [create] command that may be left out and have no
    default: the request field, the parameter, the option names. *)
Definition create_optional (g : Group) : list (string * string * list string) :=
  match g with
  | external =>
      [("primary_dns_ip", "primary_dns_ip", ["--dns1"]);
       ("secondary_dns_ip", "secondary_dns_ip", ["--dns2"]);
       ("dns_suffix", "dns_suffix", ["--dns-suffix"])]
  | direct => []
  | isolated =>
      [("primary_dns_ip", "primary_dns_ip", ["--dns1"]);
       ("secondary_dns_ip", "secondary_dns_ip", ["--dns2"]);
       ("dns_suffix", "dns_suffix", ["--dns-suffix"]);
       ("ip_range_start", "ip_range_start", ["--ip-range-start"]);
       ("ip_range_end", "ip_range_end", ["--ip-range-end"]);
       ("default_lease_time", "default_lease_time", ["--default-lease-time"]);
       ("max_lease_time", "max_lease_time", ["--max-lease-time"]);
       ("dhcp_ip_range_start", "dhcp_ip_range_start", ["--dhcp-ip-range-start"]);
       ("dhcp_ip_range_end", "dhcp_ip_range_end", ["--dhcp-ip-range-end"])]
  end.

(** What the SDK raises for a call, if it raises: the three list methods
    are answered by [sdk_listing], every other method by [sdk_resource]. *)
Definition listing_methods : list string :=
  ["list_external_networks"; "list_orgvdc_direct_networks";
   "list_orgvdc_isolated_networks"].

Definition sdk_raises (w : World) (c : SdkCall) : option Exc :=
  if named listing_methods (method c)
  then match sdk_listing w c with inl e => Some e | inr _ => None end
  else match sdk_resource w c with inl e => Some e | inr _ => None end.

(** The ten commands with their declared parameters. *)
Inductive click_command : list Param → (list Token → M unit) → Prop :=
| cc_direct_create : click_command create_direct_network_params direct_create
| cc_isolated_create : click_command create_isolated_network_params isolated_create
| cc_external_create : click_command create_external_network_params external_create
| cc_external_list : click_command [] external_list
| cc_direct_list : click_command [] direct_list
| cc_isolated_list : click_command [] isolated_list
| cc_direct_delete : click_command delete_orgvdc_network_params direct_delete
| cc_isolated_delete : click_command delete_orgvdc_network_params isolated_delete
| cc_external_delete : click_command delete_external_network_params external_delete
| cc_external_update : click_command update_external_network_params external_update.

(** The state a command is left in when click has printed its help page. *)
Definition helped : State :=
  {| ctx_obj := None; events := [EvStdout OutHelp] |}.

(** ** Proof tools *)

Ltac unfold_handler :=
  unfold run, create_direct_network, create_isolated_network,
    create_external_network, list_external_networks, list_direct_networks,
    list_isolated_networks, delete_direct_networks, delete_isolated_networks,
    delete_external_network, update_external_network.

Ltac unfold_monad :=
  unfold try_except, restore_session, ctx_client, ctx_profiles_get,
    call_resource, call_listing, stdout, stderr, emit, world, get_ctx_obj,
    set_ctx_obj, lift, raise, sys_exit, mbind, M_bind, mret, M_ret.

(** Run a handler symbolically: one case per way its collaborators can
    answer. *)
Ltac handler_cases :=
  unfold_handler; unfold_monad; cbn -[lookup];
  repeat (case_match; simplify_eq; cbn -[lookup] in * ).

Lemma run_bind {A B} (m : M A) (k : A → M B) (w : World) :
  run (m ≫= k) w =
  match run m w with
  | (Ret a, s) => k a w s
  | (Raise e, s) => (Raise e, s)
  | (Exit n, s) => (Exit n, s)
  end.
Proof. reflexivity. Qed.

(** A [multiple] option yields exactly the values given, in order. *)
Lemma option_value_multiple (given : list string) :
  option_value true (PTuple []) given = PTuple given.
Proof. by destruct given. Qed.

Lemma required_multiple_given (given : list string) :
  value_is_missing true (option_value true (PTuple []) given) = false →
  given ≠ [].
Proof. by destruct given. Qed.

Lemma flag_value_no_prompt (default : bool) (given : list bool) :
  flag_value default None given = mret (default_flag default given).
Proof. unfold flag_value, default_flag. by destruct (last given). Qed.

(** Several occurrences of an option keep their command-line order. *)
Lemma option_values_app (opts : list string) (cl1 cl2 : list Token) :
  option_values opts (cl1 ++ cl2) = option_values opts cl1 ++ option_values opts cl2.
Proof. unfold option_values. apply omap_app. Qed.

Lemma check_tokens_usage (params : list Param) (cl : list Token) (e : Exc) :
  check_tokens params cl = inl e → ∃ u, e = UsageError u.
Proof.
  induction cl as [|t cl IH]; [done|].
  destruct t; cbn; repeat case_match; naive_solver.
Qed.

(** A flag without an off-name is [True] whenever it is given. *)
Lemma flag_values_on_only (on : list string) (cl : list Token) (b : bool) :
  last (flag_values on [] cl) = Some b → b = true.
Proof.
  intros Hb%last_Some_elem_of. revert Hb. unfold flag_values.
  induction cl as [|t cl IH]; cbn; [by intros ?%elem_of_nil |].
  destruct t as [v|o v|o]; cbn; try done.
  destruct (named on o); [| done].
  intros [-> | Hin]%elem_of_cons; [done | by apply IH].
Qed.

(** A flag without an off-name is given exactly when one of its names occurs
    on the command line. *)
Lemma flag_given (on : list string) (cl : list Token) :
  flag_values on [] cl ≠ [] ↔ ∃ o, o ∈ on ∧ OptFlag o ∈ cl.
Proof.
  unfold flag_values. induction cl as [|t cl IH]; cbn.
  - split; [done |]. by intros (o & _ & ?%elem_of_nil).
  - destruct t as [v|o v|o]; cbn.
    + rewrite IH. split; intros (o' & Hon & Hin); exists o'; split; try done.
      * by apply elem_of_cons; right.
      * by apply elem_of_cons in Hin as [? | ?].
    + rewrite IH. split; intros (o' & Hon & Hin); exists o'; split; try done.
      * by apply elem_of_cons; right.
      * by apply elem_of_cons in Hin as [? | ?].
    + destruct (named on o) eqn:Hnamed.
      * split; [| done]. intros _. exists o. split; [| apply list_elem_of_here].
        unfold named in Hnamed. apply existsb_exists in Hnamed as (o' & Hin & Heq).
        apply String.eqb_eq in Heq as ->. by apply list_elem_of_In.
      * rewrite IH. split; intros (o' & Hon & Hin); exists o'; split; try done.
        -- by apply elem_of_cons; right.
        -- apply elem_of_cons in Hin as [Heq | ?]; [| done]. simplify_eq.
           assert (named on o = true); [| congruence].
           unfold named. apply existsb_exists. exists o.
           split; [by apply list_elem_of_In | apply String.eqb_refl].
Qed.

Lemma named_elem_of (opts : list string) (o : string) :
  named opts o = true ↔ o ∈ opts.
Proof.
  unfold named. rewrite existsb_exists. split.
  - intros (o' & Hin & ->%String.eqb_eq). by apply list_elem_of_In.
  - intros Hin. exists o. split; [by apply list_elem_of_In | apply String.eqb_refl].
Qed.

(** What the tokenizer lets through names declared options only. *)
Lemma check_tokens_flag_declared (params : list Param) (cl : list Token) (o : string) :
  check_tokens params cl = inr () →
  OptFlag o ∈ cl →
  existsb (is_flag o) params = true.
Proof.
  induction cl as [|t cl IH]; [by intros _ ?%elem_of_nil |].
  destruct t as [v|o' v|o']; cbn.
  - intros Hcl [? | Hin]%elem_of_cons; [done | by apply IH].
  - destruct (existsb (takes_value o') params); [| by repeat case_match].
    intros Hcl [? | Hin]%elem_of_cons; [done | by apply IH].
  - destruct (existsb (is_flag o') params) eqn:Hflag; [| by repeat case_match].
    intros Hcl [? | Hin]%elem_of_cons; [by simplify_eq | by apply IH].
Qed.

Lemma help_names_undeclared (params : list Param) (names : list string) (o : string) :
  o ∈ help_names params names →
  existsb (is_flag o) params = false.
Proof.
  unfold help_names. intros Hin%list_elem_of_In.
  apply filter_In in Hin as [_ Hin].
  apply negb_true_iff, orb_false_iff in Hin. by destruct Hin.
Qed.

(** A command line of declared options does not ask for help. *)
Lemma no_help_given (params : list Param) (names : list string) (cl : list Token) :
  check_tokens params cl = inr () →
  flag_values (help_names params names) [] cl = [].
Proof.
  intros Hcheck.
  destruct (flag_values (help_names params names) [] cl) as [|b given] eqn:Hgiven;
    [done |].
  assert (flag_values (help_names params names) [] cl ≠ []) as Hne
    by (by rewrite Hgiven).
  apply flag_given in Hne as (o & Ho & Hin).
  apply help_names_undeclared in Ho.
  by rewrite (check_tokens_flag_declared params cl o Hcheck Hin) in Ho.
Qed.

Lemma check_tokens_with_help (params : list Param) (names : list string)
    (cl : list Token) :
  check_tokens params cl = inr () →
  check_tokens (params ++ [help_option names]) cl = inr ().
Proof.
  induction cl as [|t cl IH]; [done |].
  destruct t as [v|o v|o]; cbn -[help_option]; [done | |];
    rewrite !existsb_app.
  - destruct (existsb (takes_value o) params); [done | by repeat case_match].
  - destruct (existsb (is_flag o) params); [done | by repeat case_match].
Qed.

Lemma check_tokens_without_help (params : list Param) (names : list string)
    (cl : list Token) :
  check_tokens (params ++ [help_option names]) cl = inr () →
  flag_values names [] cl = [] →
  check_tokens params cl = inr ().
Proof.
  induction cl as [|t cl IH]; [done |].
  destruct t as [v|o v|o]; cbn -[help_option]; [by apply IH | |];
    rewrite !existsb_app; cbn.
  - rewrite !orb_false_r.
    destruct (existsb (takes_value o) params); [by apply IH |].
    by repeat case_match.
  - unfold flag_values. cbn. fold (flag_values names [] cl).
    destruct (named names o); [done |]. rewrite !orb_false_r.
    destruct (existsb (is_flag o) params); [by apply IH |].
    by repeat case_match.
Qed.

(** The help option, processed first: without it nothing happens, with it
    the help page is printed and the command is over, status 0. *)
Lemma process_help (names : list string) (cl : list Token) (w : World) (s : State) :
  process [help_option names] cl [] [] w s =
    match flag_values names [] cl with
    | [] => (Ret [], s)
    | _ :: _ =>
        (Exit 0, {| ctx_obj := ctx_obj s; events := events s ++ [EvStdout OutHelp] |})
    end.
Proof.
  cbn -[flag_values]. unfold flag_value.
  destruct (flag_values names [] cl) as [|b given] eqn:Hgiven; [done |].
  destruct (last (b :: given)) as [v|] eqn:Hlast.
  - rewrite <- Hgiven in Hlast. by apply flag_values_on_only in Hlast as ->.
  - by apply last_None in Hlast.
Qed.

(** On a command line of declared options, parsing is the processing of
    the declared parameters. *)
Lemma click_parse_plain (params : list Param) (cl : list Token) (w : World) :
  check_tokens params cl = inr () →
  run (click_parse params cl) w = process params cl (positionals cl) [] w initial.
Proof.
  intros Hcheck. unfold run, click_parse, world, lift.
  unfold mbind at 1 2 3, M_bind.
  rewrite (check_tokens_with_help _ _ _ Hcheck).
  unfold mret, M_ret. cbv beta iota.
  by rewrite process_help, (no_help_given _ _ _ Hcheck).
Qed.

(** Parsing ends in a usage error of the tokenizer, in the help page, or in
    the processing of the declared parameters. *)
Lemma click_parse_cases (params : list Param) (cl : list Token) (w : World) :
  (∃ u, run (click_parse params cl) w = (Raise (UsageError u), initial)) ∨
  (flag_values (help_names params (help_option_names w)) [] cl ≠ [] ∧
   run (click_parse params cl) w = (Exit 0, helped)) ∨
  (check_tokens params cl = inr () ∧
   run (click_parse params cl) w =
     process params cl (positionals cl) [] w initial).
Proof.
  destruct (check_tokens
              (params ++ [help_option (help_names params (help_option_names w))]) cl)
    as [e|[]] eqn:Hcheck.
  - left. apply check_tokens_usage in Hcheck as Hu. destruct Hu as [u ->].
    exists u. unfold run, click_parse, world, lift.
    unfold mbind at 1 2 3, M_bind. by rewrite Hcheck.
  - destruct (flag_values (help_names params (help_option_names w)) [] cl)
      as [|b given] eqn:Hgiven.
    + right; right.
      apply check_tokens_without_help in Hcheck as Hplain; [| done].
      split; [done | by apply click_parse_plain].
    + right; left. split; [done |].
      unfold run, click_parse, world, lift.
      unfold mbind at 1 2 3, M_bind.
      rewrite Hcheck. unfold mret, M_ret. cbv beta iota.
      by rewrite process_help, Hgiven.
Qed.

Ltac parse_simpl H :=
  cbn -[option_values flag_values positionals check_tokens option_value
        value_is_missing flag_value default_flag] in H;
  rewrite ?flag_value_no_prompt in H;
  unfold mbind, M_bind, mret, M_ret, raise in H.

(** Follow [click_parse] through a parameter list: one case per way the
    command line can fall short. *)
Ltac parse_cases H :=
  match type of H with
  | run (click_parse ?ps ?c) ?w = _ =>
      let Hc := fresh "Hcheck" in
      let Hrun := fresh "Hrun" in
      destruct (click_parse_cases ps c w) as [[? Hrun] | [[? Hrun] | [Hc Hrun]]];
      rewrite Hrun in H; clear Hrun
  end;
  repeat (parse_simpl H;
          match type of H with
          | context [match ?x with _ => _ end] => destruct x eqn:?
          | (_, _) = (_, _) => injection H as <- <-
          end).

(** Parsing a [create] command line ends in a usage error with nothing
    touched, in the help page, or with nothing touched in the parameters
    above; then every required parameter was given. *)
Lemma parse_create (g : Group) (w : World) (cl : list Token) r s :
  run (click_parse (create_params g) cl) w = (r, s) →
  (s = initial ∧ ∃ u, r = Raise (UsageError u)) ∨
  (s = helped ∧ r = Exit 0 ∧
   flag_values (help_names (create_params g) (help_option_names w)) [] cl ≠ []) ∨
  (s = initial ∧ r = Ret (create_kwargs g cl) ∧
   (g = external →
      option_values ["-p"; "--port-group"] cl ≠ [] ∧
      option_values ["-i"; "--ip-range"] cl ≠ [])).
Proof.
  intros H.
  destruct (click_parse_cases (create_params g) cl w)
    as [[u Hrun] | [[Hhelp Hrun] | [Hcheck Hrun]]]; rewrite Hrun in H; clear Hrun.
  { left. injection H as <- <-. eauto. }
  { right; left. by injection H as <- <-. }
  destruct g; unfold create_params in H.
  - unfold create_external_network_params in H.
    repeat (parse_simpl H;
            match type of H with
            | context [match ?x with _ => _ end] => destruct x eqn:?
            | (_, _) = (_, _) => injection H as <- <-
            end);
      try (left; split; [reflexivity | eexists; reflexivity]).
    right; right. split; [reflexivity |]. unfold create_kwargs.
    repeat match goal with
           | H : positionals cl = _ |- _ => rewrite H
           | H : value_is_missing true _ = false |- _ =>
               apply required_multiple_given in H
           end.
    split; [| done].
    by destruct (option_values ["-p"; "--port-group"] cl),
                (option_values ["-i"; "--ip-range"] cl).
  - unfold create_direct_network_params in H.
    repeat (parse_simpl H;
            match type of H with
            | context [match ?x with _ => _ end] => destruct x eqn:?
            | (_, _) = (_, _) => injection H as <- <-
            end);
      try (left; split; [reflexivity | eexists; reflexivity]).
    right; right. split; [reflexivity |]. unfold create_kwargs.
    repeat match goal with H : positionals cl = _ |- _ => rewrite H end.
    split; [reflexivity | done].
  - unfold create_isolated_network_params in H.
    repeat (parse_simpl H;
            match type of H with
            | context [match ?x with _ => _ end] => destruct x eqn:?
            | (_, _) = (_, _) => injection H as <- <-
            end);
      try (left; split; [reflexivity | eexists; reflexivity]).
    right; right. split; [reflexivity |]. unfold create_kwargs.
    repeat match goal with H : positionals cl = _ |- _ => rewrite H end.
    split; [reflexivity | done].
Qed.

(** ** Session scope *)

(** C2.  Each of direct create, isolated create, direct list, isolated
    list, direct delete and isolated delete, run on a session that has no
    virtual datacenter selected, fails with [NoVdcSelected]: that error is
    the one message on the error stream, the exit status is not zero, and no
    SDK call is made (nor anything written to the output stream). *)
Theorem C2_no_vdc_selected (op : M unit) (w : World) (client : Client) :
  vdc_scoped op →
  session_token w = Some client →
  session_profiles w !! "vdc_href" = None →
  exit_status (run op w).1 ≠ 0 ∧
  stderr_writes (events (run op w).2) = [NoVdcSelected] ∧
  sdk_calls (events (run op w).2) = [] ∧
  stdout_writes (events (run op w).2) = [].
Proof.
  intros Hop Htoken Hvdc.
  destruct Hop; unfold_handler; unfold_monad; cbn -[lookup];
    rewrite Htoken; cbn -[lookup]; rewrite Hvdc; cbn; done.
Qed.

Lemma C2_no_vdc_selected_witness :
  exit_status (run list_direct_networks w_no_vdc).1 ≠ 0 ∧
  stderr_writes (events (run list_direct_networks w_no_vdc).2) = [NoVdcSelected] ∧
  sdk_calls (events (run list_direct_networks w_no_vdc).2) = [] ∧
  stdout_writes (events (run list_direct_networks w_no_vdc).2) = [].
Proof.
  apply (C2_no_vdc_selected list_direct_networks w_no_vdc "token").
  - exact vs_direct_list.
  - reflexivity.
  - vm_compute. reflexivity.
Defined.

(** ** Failures stop at the handler *)

Ltac raised_call Hin Hraise :=
  try (by apply elem_of_nil in Hin);
  apply list_elem_of_singleton in Hin; subst;
  unfold sdk_raises in Hraise; cbn -[lookup] in Hraise;
  repeat match goal with
         | H : sdk_resource _ _ = _ |- _ => rewrite H in Hraise
         | H : sdk_listing _ _ = _ |- _ => rewrite H in Hraise
         end;
  simplify_eq.

(** C7, as the code has it.  Every failure raised while the handler of a
    leaf operation runs is caught by the handler itself and handed to
    [stderr]: when the session does not restore, when no datacenter is
    selected for an operation that needs one, when the SDK call raises, when
    the result lacks its task, that very exception is the one message on the
    error stream and the exit status is not zero.  The handler never ends in
    an exception: it either returns, with exit status 0 and an untouched
    error stream, or it has written one message, last of all, and leaves with
    a status that is not zero. *)
Theorem C7_failures_caught (op : M unit) (w : World) :
  leaf_operation op →
  match run op w with
  | (Ret tt, s) =>
      exit_status (Ret tt) = 0 ∧ stderr_writes (events s) = []
  | (Exit n, s) =>
      exit_status (Exit n) ≠ 0 ∧
      ∃ e, stderr_writes (events s) = [e] ∧ last (events s) = Some (EvStderr e)
  | (Raise e, _) => False
  end ∧
  (session_token w = None →
     exit_status (run op w).1 ≠ 0 ∧
     stderr_writes (events (run op w).2) = [AuthFailure]) ∧
  (vdc_scoped op → is_Some (session_token w) →
   session_profiles w !! "vdc_href" = None →
     exit_status (run op w).1 ≠ 0 ∧
     stderr_writes (events (run op w).2) = [NoVdcSelected]) ∧
  (∀ c e, c ∈ sdk_calls (events (run op w).2) → sdk_raises w c = Some e →
     exit_status (run op w).1 ≠ 0 ∧
     stderr_writes (events (run op w).2) = [e]) ∧
  (∀ reader outs c result e,
     reads_task op reader outs →
     c ∈ sdk_calls (events (run op w).2) →
     sdk_resource w c = inr result → reader result = inl e →
     exit_status (run op w).1 ≠ 0 ∧
     stderr_writes (events (run op w).2) = [e]).
Proof.
  intros Hop. split; [| split; [| split; [| split]]].
  - destruct Hop; handler_cases; try done;
      (split; [done | eexists; split; reflexivity]).
  - intros Htoken.
    destruct Hop; unfold_handler; unfold_monad; cbn -[lookup];
      rewrite Htoken; cbn; done.
  - intros Hscoped [client Htoken] Hvdc.
    destruct Hscoped; unfold_handler; unfold_monad; cbn -[lookup];
      rewrite Htoken; cbn -[lookup]; rewrite Hvdc; cbn; done.
  - intros c e.
    destruct Hop; handler_cases; intros Hin Hraise; raised_call Hin Hraise; done.
  - intros reader outs c result e Hreads.
    destruct Hreads; handler_cases; intros Hin Hresult Hreader;
      try (by apply elem_of_nil in Hin);
      apply list_elem_of_singleton in Hin; subst; cbn -[lookup] in *;
      first [ split; [done | congruence] | exfalso; congruence ].
Qed.

Lemma C7_failures_caught_witness :
  match run (delete_external_network (PStr "external-net1")) w_rejecting with
  | (Ret tt, s) =>
      exit_status (Ret tt) = 0 ∧ stderr_writes (events s) = []
  | (Exit n, s) =>
      exit_status (Exit n) ≠ 0 ∧
      ∃ e, stderr_writes (events s) = [e] ∧ last (events s) = Some (EvStderr e)
  | (Raise e, _) => False
  end ∧
  (session_token w_rejecting = None →
     exit_status (run (delete_external_network (PStr "external-net1")) w_rejecting).1 ≠ 0 ∧
     stderr_writes (events (run (delete_external_network (PStr "external-net1"))
                              w_rejecting).2) = [AuthFailure]) ∧
  (vdc_scoped (delete_external_network (PStr "external-net1")) →
   is_Some (session_token w_rejecting) →
   session_profiles w_rejecting !! "vdc_href" = None →
     exit_status (run (delete_external_network (PStr "external-net1")) w_rejecting).1 ≠ 0 ∧
     stderr_writes (events (run (delete_external_network (PStr "external-net1"))
                              w_rejecting).2) = [NoVdcSelected]) ∧
  (∀ c e,
     c ∈ sdk_calls (events (run (delete_external_network (PStr "external-net1"))
                              w_rejecting).2) →
     sdk_raises w_rejecting c = Some e →
     exit_status (run (delete_external_network (PStr "external-net1")) w_rejecting).1 ≠ 0 ∧
     stderr_writes (events (run (delete_external_network (PStr "external-net1"))
                              w_rejecting).2) = [e]) ∧
  (∀ reader outs c result e,
     reads_task (delete_external_network (PStr "external-net1")) reader outs →
     c ∈ sdk_calls (events (run (delete_external_network (PStr "external-net1"))
                              w_rejecting).2) →
     sdk_resource w_rejecting c = inr result → reader result = inl e →
     exit_status (run (delete_external_network (PStr "external-net1")) w_rejecting).1 ≠ 0 ∧
     stderr_writes (events (run (delete_external_network (PStr "external-net1"))
                              w_rejecting).2) = [e]).
Proof.
  apply (C7_failures_caught (delete_external_network (PStr "external-net1"))
           w_rejecting).
  apply op_external_delete.
Defined.

(** C7 as stated fails for validation: a missing required option is found
    by click before the handler is entered, outside its [try].  The usage
    error leaves the command as an exception, and the command has written
    nothing to the error stream. *)
Lemma C7_usage_error_not_caught :
  run (external_create [Positional "external-net1"; Positional "vc1";
                        OptValue "--gateway" "192.168.1.1";
                        OptValue "--netmask" "255.255.255.0";
                        OptValue "--ip-range" "192.168.1.2-192.168.1.49"]) w_ok =
    (Raise (UsageError (MissingParameter "port_group")), initial) ∧
  stderr_writes (events initial) = [].
Proof. split; reflexivity. Qed.

(** The rejecting server: the message is the server's. *)
Example rejection_reaches_stderr :
  run (delete_external_network (PStr "external-net1")) w_rejecting =
  (Exit 1,
   {| ctx_obj := Some {| obj_client := "token";
                         obj_profiles := session_profiles w_ok |};
      events :=
        [EvRestoreSession false;
         EvSdk {| target := Platform "token";
                  method := "delete_external_network";
                  kwargs := [("name", PStr "external-net1")] |};
         EvStderr (RemoteRejected "conflict")] |}).
Proof. reflexivity. Qed.

(** ** Output comes last *)

(** C9.  In every leaf operation the output stream is written only after
    the one SDK call has returned.  When session restoration raises (no
    session, or no datacenter where one is needed) or when the SDK call
    raises, nothing at all is written to the output stream and the raised
    exception is the one message on the error stream; whenever something was
    written to the output stream, one SDK call was made before it and that
    call did not raise.  No run makes more than one SDK call, and a run that
    does not return normally has an empty output stream and exactly one
    error message. *)
Theorem C9_output_only_after_call (op : M unit) (w : World) :
  leaf_operation op →
  output_follows_call false (events (run op w).2) = true ∧
  (length (sdk_calls (events (run op w).2)) ≤ 1)%nat ∧
  ((run op w).1 ≠ Ret () →
     stdout_writes (events (run op w).2) = [] ∧
     ∃ e, stderr_writes (events (run op w).2) = [e]) ∧
  (session_token w = None →
     stdout_writes (events (run op w).2) = [] ∧
     stderr_writes (events (run op w).2) = [AuthFailure]) ∧
  (vdc_scoped op → is_Some (session_token w) →
   session_profiles w !! "vdc_href" = None →
     stdout_writes (events (run op w).2) = [] ∧
     stderr_writes (events (run op w).2) = [NoVdcSelected]) ∧
  (∀ c e, c ∈ sdk_calls (events (run op w).2) → sdk_raises w c = Some e →
     stdout_writes (events (run op w).2) = [] ∧
     stderr_writes (events (run op w).2) = [e]) ∧
  (stdout_writes (events (run op w).2) ≠ [] →
     ∃ c, sdk_calls (events (run op w).2) = [c] ∧ sdk_raises w c = None).
Proof.
  intros Hop. split; [| split; [| split; [| split; [| split; [| split]]]]].
  - destruct Hop; handler_cases; done.
  - destruct Hop; handler_cases; cbn; lia.
  - destruct Hop; handler_cases; intros Hr; try done; eauto.
  - intros Htoken.
    destruct Hop; unfold_handler; unfold_monad; cbn -[lookup];
      rewrite Htoken; cbn; done.
  - intros Hscoped [client Htoken] Hvdc.
    destruct Hscoped; unfold_handler; unfold_monad; cbn -[lookup];
      rewrite Htoken; cbn -[lookup]; rewrite Hvdc; cbn; done.
  - intros c e.
    destruct Hop; handler_cases; intros Hin Hraise; raised_call Hin Hraise; done.
  - destruct Hop; handler_cases; intros Hout; try done;
      (eexists; split; [reflexivity |]);
      unfold sdk_raises; cbn -[lookup];
      repeat match goal with
             | H : sdk_resource _ _ = _ |- _ => rewrite H
             | H : sdk_listing _ _ = _ |- _ => rewrite H
             end; done.
Qed.

Lemma C9_output_only_after_call_witness :
  output_follows_call false (events (run list_direct_networks w_rejecting).2) = true ∧
  (length (sdk_calls (events (run list_direct_networks w_rejecting).2)) ≤ 1)%nat ∧
  ((run list_direct_networks w_rejecting).1 ≠ Ret () →
     stdout_writes (events (run list_direct_networks w_rejecting).2) = [] ∧
     ∃ e, stderr_writes (events (run list_direct_networks w_rejecting).2) = [e]) ∧
  (session_token w_rejecting = None →
     stdout_writes (events (run list_direct_networks w_rejecting).2) = [] ∧
     stderr_writes (events (run list_direct_networks w_rejecting).2) = [AuthFailure]) ∧
  (vdc_scoped list_direct_networks → is_Some (session_token w_rejecting) →
   session_profiles w_rejecting !! "vdc_href" = None →
     stdout_writes (events (run list_direct_networks w_rejecting).2) = [] ∧
     stderr_writes (events (run list_direct_networks w_rejecting).2) = [NoVdcSelected]) ∧
  (∀ c e, c ∈ sdk_calls (events (run list_direct_networks w_rejecting).2) →
     sdk_raises w_rejecting c = Some e →
     stdout_writes (events (run list_direct_networks w_rejecting).2) = [] ∧
     stderr_writes (events (run list_direct_networks w_rejecting).2) = [e]) ∧
  (stdout_writes (events (run list_direct_networks w_rejecting).2) ≠ [] →
     ∃ c, sdk_calls (events (run list_direct_networks w_rejecting).2) = [c] ∧
          sdk_raises w_rejecting c = None).
Proof.
  apply (C9_output_only_after_call list_direct_networks w_rejecting).
  exact op_direct_list.
Defined.

(** On the rejecting server the listing fails on its call, and prints
    nothing. *)
Example rejected_listing_prints_nothing :
  sdk_raises w_rejecting
    {| target := VDC "token" (Some "https://vcd/api/vdc/1");
       method := "list_orgvdc_direct_networks"; kwargs := [] |} =
    Some (RemoteRejected "conflict") ∧
  stdout_writes (events (run list_direct_networks w_rejecting).2) = [] ∧
  stderr_writes (events (run list_direct_networks w_rejecting).2) =
    [RemoteRejected "conflict"].
Proof. repeat split. Qed.

(** ** Creating networks *)

Ltac restore_ok Hs :=
  let Htoken := fresh "Htoken" in
  let Hvdc := fresh "Hvdc" in
  destruct Hs as [Htoken Hvdc];
  unfold_handler; unfold_monad; cbn -[lookup];
  rewrite Htoken; cbn -[lookup];
  try (destruct Hvdc as [? Hvdc]; [done |]; rewrite Hvdc; cbn -[lookup]).

(** On a session that restores, a create handler makes one SDK call, with
    the arguments it was given. *)
Lemma create_handler_calls (g : Group) (w : World) (client : Client)
    (kw : list (string * PVal)) :
  session_for g w client →
  sdk_calls (events (run
    match g with
    | external =>
        create_external_network (kwarg kw "name") (kwarg kw "vc_name")
          (kwarg kw "port_group") (kwarg kw "gateway_ip") (kwarg kw "netmask")
          (kwarg kw "ip_range") (kwarg kw "description")
          (kwarg kw "primary_dns_ip") (kwarg kw "secondary_dns_ip")
          (kwarg kw "dns_suffix")
    | direct =>
        create_direct_network (kwarg kw "name")
          (kwarg kw "parent_network_name") (kwarg kw "description")
          (kwarg kw "is_shared")
    | isolated =>
        create_isolated_network (kwarg kw "name") (kwarg kw "gateway_ip")
          (kwarg kw "netmask") (kwarg kw "description")
          (kwarg kw "primary_dns_ip") (kwarg kw "secondary_dns_ip")
          (kwarg kw "dns_suffix") (kwarg kw "ip_range_start")
          (kwarg kw "ip_range_end") (kwarg kw "is_dhcp_enabled")
          (kwarg kw "default_lease_time") (kwarg kw "max_lease_time")
          (kwarg kw "dhcp_ip_range_start") (kwarg kw "dhcp_ip_range_end")
          (kwarg kw "is_shared")
    end w).2) =
  [create_request g client (session_profiles w !! "vdc_href") kw].
Proof.
  intros Hs. unfold create_request.
  generalize (kwarg kw). intros arg.
  destruct g; restore_ok Hs;
    repeat (case_match; simplify_eq; cbn -[lookup]); rewrite ?Hvdc; done.
Qed.

(** An accepted [create] command line, on a session that restores, makes
    one SDK call: the request for the parsed parameters. *)
Lemma create_calls (g : Group) (w : World) (cl : list Token) kw s0 client :
  run (click_parse (create_params g) cl) w = (Ret kw, s0) →
  session_for g w client →
  kw = create_kwargs g cl ∧
  sdk_calls (events (run (create_command g cl) w).2) =
    [create_request g client (session_profiles w !! "vdc_href") kw].
Proof.
  intros Hparse Hs.
  destruct (parse_create g w cl _ _ Hparse)
    as [[_ [u ?]] | [(_ & ? & _) | (Hs0 & Hkw & _)]]; [done | done |].
  split; [congruence |].
  rewrite <- (create_handler_calls g w client kw Hs).
  subst s0.
  destruct g; unfold create_params in Hparse;
    unfold create_command, external_create, direct_create, isolated_create;
    rewrite run_bind, Hparse; reflexivity.
Qed.

Lemma create_kwargs_description (g : Group) (cl : list Token) :
  g ≠ external →
  kwarg (create_kwargs g cl) "description" =
    option_value false (PStr EmptyString)
      (option_values ["-d"; "--description"] cl).
Proof. destruct g; [done | |]; reflexivity. Qed.

Lemma create_kwargs_is_shared (g : Group) (cl : list Token) :
  g ≠ external →
  kwarg (create_kwargs g cl) "is_shared" =
    PBool (default_flag false (shared_given g cl)).
Proof. destruct g; [done | |]; reflexivity. Qed.

Lemma create_request_description (g : Group) client href kw :
  kwarg (kwargs (create_request g client href kw)) "description" =
    kwarg kw "description".
Proof. destruct g; reflexivity. Qed.

Lemma create_request_is_shared (g : Group) client href kw :
  g ≠ external →
  kwarg (kwargs (create_request g client href kw)) "is_shared" =
    kwarg kw "is_shared".
Proof. destruct g; [done | |]; reflexivity. Qed.

(** What asks for help on a command is among the context's help names. *)
Lemma help_not_asked (params : list Param) (names : list string) (cl : list Token) :
  flag_values names [] cl = [] →
  flag_values (help_names params names) [] cl = [].
Proof.
  intros Hnone.
  destruct (flag_values (help_names params names) [] cl) as [|b given] eqn:Hgiven;
    [done |].
  assert (flag_values (help_names params names) [] cl ≠ []) as Hne
    by (by rewrite Hgiven).
  apply flag_given in Hne as (o & Ho & Hin).
  assert (flag_values names [] cl ≠ []); [| done].
  apply flag_given. exists o. split; [| done].
  unfold help_names in Ho. apply list_elem_of_In, filter_In in Ho as [Ho _].
  by apply list_elem_of_In.
Qed.

(** C3.  [external create] with no [--port-group] at all, or with no
    [--ip-range] at all, makes no SDK call and restores no session, whatever
    else the command line holds.  Unless the command line asks for the help
    page, the command fails with a usage error raised by the argument
    parser, and it has by then done nothing at all. *)
Theorem C3_external_create_required_lists (w : World) (cl : list Token) :
  option_values ["-p"; "--port-group"] cl = [] ∨
  option_values ["-i"; "--ip-range"] cl = [] →
  sdk_calls (events (run (external_create cl) w).2) = [] ∧
  restorations (events (run (external_create cl) w).2) = [] ∧
  (flag_values (help_option_names w) [] cl = [] →
     (∃ u, (run (external_create cl) w).1 = Raise (UsageError u)) ∧
     events (run (external_create cl) w).2 = []).
Proof.
  intros Hmissing. unfold external_create. rewrite run_bind.
  destruct (run (click_parse create_external_network_params cl) w)
    as [r s] eqn:Hparse.
  destruct (parse_create external w cl r s Hparse)
    as [[-> [u ->]] | [(-> & -> & Hhelp) | (_ & _ & Hgiven)]].
  - cbn. eauto.
  - cbn. split; [done |]. split; [done |].
    intros Hnone. by apply (help_not_asked create_external_network_params) in Hnone.
  - destruct (Hgiven eq_refl). by destruct Hmissing.
Qed.

Lemma C3_external_create_required_lists_witness :
  let cl := [Positional "external-net1"; Positional "vc1";
             OptValue "--gateway" "192.168.1.1";
             OptValue "--netmask" "255.255.255.0";
             OptValue "--ip-range" "192.168.1.2-192.168.1.49"] in
  sdk_calls (events (run (external_create cl) w_ok).2) = [] ∧
  restorations (events (run (external_create cl) w_ok).2) = [] ∧
  (flag_values (help_option_names w_ok) [] cl = [] →
     (∃ u, (run (external_create cl) w_ok).1 = Raise (UsageError u)) ∧
     events (run (external_create cl) w_ok).2 = []).
Proof.
  apply (C3_external_create_required_lists w_ok).
  left. reflexivity.
Defined.

(** Without port groups the command fails; asking for help instead prints
    the help page, and still nothing is sent. *)
Example external_create_without_port_group :
  run (external_create [Positional "external-net1"; Positional "vc1";
                        OptValue "--gateway" "192.168.1.1";
                        OptValue "--netmask" "255.255.255.0";
                        OptValue "--ip-range" "192.168.1.2-192.168.1.49"]) w_ok =
    (Raise (UsageError (MissingParameter "port_group")), initial) ∧
  run (external_create [OptFlag "--help"]) w_ok = (Exit 0, helped).
Proof. split; reflexivity. Qed.

(** C4.  For each of the three [create] commands, a command line that
    click accepts, on a session that restores, leads to exactly one SDK
    create call.  Its payload is the parsed parameters field for field, and
    the parsed parameters are the command line's: in particular the port
    groups and IP ranges of [external create] are the given values in the
    order given. *)
Theorem C4_create_forwards_arguments (g : Group) (w : World) (cl : list Token)
    kw s0 client :
  run (click_parse (create_params g) cl) w = (Ret kw, s0) →
  session_for g w client →
  kw = create_kwargs g cl ∧
  sdk_calls (events (run (create_command g cl) w).2) =
    [create_request g client (session_profiles w !! "vdc_href") kw] ∧
  (g = external →
     kwarg kw "port_group" = PTuple (option_values ["-p"; "--port-group"] cl) ∧
     kwarg kw "ip_range" = PTuple (option_values ["-i"; "--ip-range"] cl)).
Proof.
  intros Hparse Hs.
  destruct (create_calls g w cl kw s0 client Hparse Hs) as [-> Hcalls].
  split; [done | split; [done |]].
  intros ->. split; reflexivity.
Qed.

Lemma C4_create_forwards_arguments_witness :
  let kw := create_kwargs external two_ranges in
  kw = create_kwargs external two_ranges ∧
  sdk_calls (events (run (create_command external two_ranges) w_ok).2) =
    [create_request external "token" (session_profiles w_ok !! "vdc_href") kw] ∧
  (external = external →
     kwarg kw "port_group" = PTuple (option_values ["-p"; "--port-group"] two_ranges) ∧
     kwarg kw "ip_range" = PTuple (option_values ["-i"; "--ip-range"] two_ranges)).
Proof.
  apply (C4_create_forwards_arguments external w_ok two_ranges _ initial "token").
  - reflexivity.
  - split; [reflexivity | done].
Defined.

(** The two ranges of the spec's example reach the request in input order. *)
Example two_ranges_in_order :
  kwarg (create_kwargs external two_ranges) "ip_range" =
    PTuple ["10.0.0.2-10.0.0.9"; "10.0.0.20-10.0.0.29"] ∧
  kwarg (create_kwargs external two_ranges) "port_group" = PTuple ["pg1"; "pg2"].
Proof. split; reflexivity. Qed.

(** C10.  For [direct create] and [isolated create], on a command line
    that click accepts: when [--description] is not given the description
    sent is the empty string, not [None]; when the shared flag is not given
    the [is_shared] sent is [False]; both are what the one SDK create call
    carries. *)
Theorem C10_create_defaults (g : Group) (w : World) (cl : list Token)
    kw s0 client :
  g ≠ external →
  run (click_parse (create_params g) cl) w = (Ret kw, s0) →
  session_for g w client →
  ∃ c, sdk_calls (events (run (create_command g cl) w).2) = [c] ∧
    (option_values ["-d"; "--description"] cl = [] →
       kwarg kw "description" = PStr EmptyString ∧
       kwarg (kwargs c) "description" = PStr EmptyString) ∧
    (shared_given g cl = [] →
       kwarg kw "is_shared" = PBool false ∧
       kwarg (kwargs c) "is_shared" = PBool false).
Proof.
  intros Hg Hparse Hs.
  destruct (create_calls g w cl kw s0 client Hparse Hs) as [-> Hcalls].
  eexists. split; [exact Hcalls |].
  rewrite create_request_description, (create_request_is_shared g) by done.
  rewrite create_kwargs_description, create_kwargs_is_shared by done.
  split; intros ->; done.
Qed.

Lemma C10_create_defaults_witness :
  let cl := [Positional "direct-net1"; OptValue "--parent" "ext-net1"] in
  ∃ c, sdk_calls (events (run (create_command direct cl) w_ok).2) = [c] ∧
    (option_values ["-d"; "--description"] cl = [] →
       kwarg (create_kwargs direct cl) "description" = PStr EmptyString ∧
       kwarg (kwargs c) "description" = PStr EmptyString) ∧
    (shared_given direct cl = [] →
       kwarg (create_kwargs direct cl) "is_shared" = PBool false ∧
       kwarg (kwargs c) "is_shared" = PBool false).
Proof.
  apply (C10_create_defaults direct w_ok _ _ initial "token").
  - done.
  - reflexivity.
  - split; [reflexivity | intros _; vm_compute; eauto].
Defined.

(** ** Listing networks *)

Lemma name_records_length (nets : list Xml) :
  length (name_records nets) = length nets.
Proof. induction nets as [|net nets IH]; [done | cbn; by rewrite IH]. Qed.

Lemma name_records_lookup (nets : list Xml) (i : nat) :
  name_records nets !! i =
    (λ net, {[ "name" := xml_get net "name" ]}) <$> nets !! i.
Proof.
  revert i. induction nets as [|net nets IH]; intros [|i]; try done.
  cbn. apply IH.
Qed.

Lemma name_records_fields (nets : list Xml) (r : gmap string PVal) :
  r ∈ name_records nets → dom r = {[ "name" ]}.
Proof.
  induction nets as [|net nets IH]; cbn; [by intros ?%elem_of_nil |].
  intros [-> | Hin]%elem_of_cons; [apply dom_singleton_L | by apply IH].
Qed.

(** C6.  Each of the three [list] commands, on a session that restores
    and a server that answers with the networks [nets], returns normally
    and writes one list to the output stream: as many records as there are
    networks, the i-th record being the dict whose only key is ['name'],
    bound to the name of the i-th network; for no networks it is the empty
    list, and nothing goes to the error stream. *)
Theorem C6_list_records (g : Group) (w : World) (client : Client)
    (nets : list Xml) :
  session_for g w client →
  sdk_listing w (list_request g client (session_profiles w !! "vdc_href")) = inr nets →
  ∃ records,
    (run (list_command g []) w).1 = Ret () ∧
    stdout_writes (events (run (list_command g []) w).2) = [OutRecords records] ∧
    stderr_writes (events (run (list_command g []) w).2) = [] ∧
    length records = length nets ∧
    (∀ i net, nets !! i = Some net →
       records !! i = Some {[ "name" := xml_get net "name" ]}) ∧
    (∀ r, r ∈ records → dom r = {[ "name" ]}) ∧
    (nets = [] → records = []).
Proof.
  intros Hs Hnets. exists (name_records nets).
  assert (Hrun : run (list_command g []) w =
    (Ret (), {| ctx_obj := Some {| obj_client := client;
                                   obj_profiles := session_profiles w |};
                events := [EvRestoreSession (match g with external => false | _ => true end);
                           EvSdk (list_request g client (session_profiles w !! "vdc_href"));
                           EvStdout (OutRecords (name_records nets))] |})).
  { unfold list_request in *.
    destruct g; unfold list_command, external_list, direct_list,
      isolated_list; rewrite run_bind; cbn -[lookup];
      restore_ok Hs; rewrite ?Hvdc in *; rewrite Hnets; reflexivity. }
  rewrite Hrun. cbn -[lookup dom].
  repeat split; try done.
  - apply name_records_length.
  - intros i net Hi. by rewrite name_records_lookup, Hi.
  - apply name_records_fields.
  - by intros ->.
Qed.

Lemma C6_list_records_witness :
  ∃ records,
    (run (list_command direct []) w_ok).1 = Ret () ∧
    stdout_writes (events (run (list_command direct []) w_ok).2) = [OutRecords records] ∧
    stderr_writes (events (run (list_command direct []) w_ok).2) = [] ∧
    length records = length two_networks ∧
    (∀ i net, two_networks !! i = Some net →
       records !! i = Some {[ "name" := xml_get net "name" ]}) ∧
    (∀ r, r ∈ records → dom r = {[ "name" ]}) ∧
    (two_networks = [] → records = []).
Proof.
  apply (C6_list_records direct w_ok "token" two_networks).
  - split; [reflexivity | intros _; vm_compute; eauto].
  - reflexivity.
Defined.

(** ** Updating an external network *)

Lemma parse_update (w : World) (cl : list Token) (n : string) :
  check_tokens update_external_network_params cl = inr () →
  positionals cl = [n] →
  run (click_parse update_external_network_params cl) w =
    (Ret [("name", PStr n);
          ("new_name", option_value false PNone (option_values ["-n"; "--name"] cl));
          ("new_description",
           option_value false PNone (option_values ["-d"; "--description"] cl))],
     initial).
Proof.
  intros Hcheck Hpos. rewrite (click_parse_plain _ _ _ Hcheck).
  cbn -[option_values option_value]. by rewrite Hpos.
Qed.



(** With only a description, and with nothing at all, the command goes
    through on [w_ok]. *)
Example update_description_only :
  run (external_update [Positional "external-net1"; OptValue "-d" "New"]) w_ok =
  (Ret (),
   {| ctx_obj := Some {| obj_client := "token";
                         obj_profiles := session_profiles w_ok |};
      events :=
        [EvRestoreSession false;
         EvSdk {| target := Platform "token";
                  method := "update_external_network";
                  kwargs := [("name", PStr "external-net1"); ("new_name", PNone);
                             ("new_description", PStr "New")] |};
         EvStdout (OutElem a_task);
         EvStdout (OutStr "External network updated successfully.")] |}).
Proof. reflexivity. Qed.

Example update_nothing :
  (run (external_update [Positional "external-net1"]) w_ok).1 = Ret () ∧
  sdk_calls (events (run (external_update [Positional "external-net1"]) w_ok).2) =
    [{| target := Platform "token";
        method := "update_external_network";
        kwargs := [("name", PStr "external-net1"); ("new_name", PNone);
                   ("new_description", PNone)] |}].
Proof. split; reflexivity. Qed.

(** ** Deleting networks *)

(** Parsing [direct delete] or [isolated delete]: with [--yes] nothing is
    asked; without it the user is asked, and a negative answer leaves the
    process with status 0 there and then. *)
Lemma parse_delete (w : World) (cl : list Token) (n : string) :
  check_tokens delete_orgvdc_network_params cl = inr () →
  positionals cl = [n] →
  run (click_parse delete_orgvdc_network_params cl) w =
    match flag_values ["-y"; "--yes"] [] cl with
    | [] => if confirm w delete_prompt
            then (Ret (delete_kwargs n cl), prompted)
            else (Exit 0, prompted)
    | _ :: _ => (Ret (delete_kwargs n cl), initial)
    end.
Proof.
  intros Hcheck Hpos. rewrite (click_parse_plain _ _ _ Hcheck).
  cbn -[flag_values flag_value default_flag]. rewrite Hpos.
  rewrite flag_value_no_prompt.
  cbn -[flag_values flag_value default_flag]. unfold flag_value.
  destruct (flag_values ["-y"; "--yes"] [] cl) as [|b given] eqn:Hyes.
  - unfold_monad. cbn. by destruct (confirm w delete_prompt).
  - destruct (last (b :: given)) as [v|] eqn:Hlast.
    + rewrite <- Hyes in Hlast. apply flag_values_on_only in Hlast as ->.
      reflexivity.
    + by apply last_None in Hlast.
Qed.

(** From whatever state parsing left, the handlers of [direct delete] and
    [isolated delete] only add to the log, never a prompt, and on a session
    that restores exactly one SDK call: the delete request. *)
Lemma delete_handler_log (g : Group) (w : World) (s : State) (name force : PVal) :
  g ≠ external →
  let handler :=
    match g with
    | direct => delete_direct_networks name force
    | _ => delete_isolated_networks name force
    end in
  ∃ rest,
    events (handler w s).2 = events s ++ rest ∧
    prompts rest = [] ∧
    head rest = Some (EvRestoreSession true) ∧
    (∀ client, session_for g w client →
       sdk_calls rest =
         [delete_request g client (session_profiles w !! "vdc_href") name force]).
Proof.
  intros Hg handler. subst handler.
  destruct g; [done | |]; unfold_handler; unfold_monad; cbn -[lookup];
    repeat (case_match; simplify_eq; cbn -[lookup] in * );
    rewrite <- ?(assoc_L (++)); cbn -[lookup];
    (eexists; split; [reflexivity |]; split; [done |]; split; [done |]);
    intros client [Htoken Hvdc]; simplify_eq;
    try (destruct Hvdc as [? Hvdc]; [done |]);
    repeat match goal with
           | H : bool_decide _ = true |- _ => apply bool_decide_eq_true in H
           end;
    try congruence; done.
Qed.

Lemma prompts_app (l1 l2 : list Event) :
  prompts (l1 ++ l2) = prompts l1 ++ prompts l2.
Proof. apply omap_app. Qed.

Lemma sdk_calls_app (l1 l2 : list Event) :
  sdk_calls (l1 ++ l2) = sdk_calls l1 ++ sdk_calls l2.
Proof. apply omap_app. Qed.

(** [direct delete] and [isolated delete] are parsing followed by the
    handler on the parsed parameters. *)
Lemma run_delete (g : Group) (w : World) (cl : list Token) :
  g ≠ external →
  run (delete_command g cl) w =
    match run (click_parse delete_orgvdc_network_params cl) w with
    | (Ret kw, s) =>
        match g with
        | direct => delete_direct_networks (kwarg kw "name") (kwarg kw "force")
        | _ => delete_isolated_networks (kwarg kw "name") (kwarg kw "force")
        end w s
    | (Raise e, s) => (Raise e, s)
    | (Exit status, s) => (Exit status, s)
    end.
Proof. destruct g; [done | |]; intros _; apply run_bind. Qed.

(** C1, as the code has it.  For [direct delete] and [isolated delete], on
    a command line click accepts and without [--yes]: the first thing the
    command does is ask for confirmation, once.  On a negative answer it does
    nothing else, makes no SDK call and leaves with status 0; on an
    affirmative answer, with a session that restores, it makes exactly one
    SDK call, the delete of the named network with the given force flag. *)
Theorem C1_orgvdc_delete_confirmation (g : Group) (w : World)
    (cl : list Token) (n : string) :
  g ≠ external →
  check_tokens delete_orgvdc_network_params cl = inr () →
  positionals cl = [n] →
  flag_values ["-y"; "--yes"] [] cl = [] →
  head (events (run (delete_command g cl) w).2) = Some (EvPrompt delete_prompt) ∧
  prompts (events (run (delete_command g cl) w).2) = [delete_prompt] ∧
  (confirm w delete_prompt = false →
     (run (delete_command g cl) w).1 = Exit 0 ∧
     exit_status (run (delete_command g cl) w).1 = 0 ∧
     events (run (delete_command g cl) w).2 = [EvPrompt delete_prompt] ∧
     sdk_calls (events (run (delete_command g cl) w).2) = []) ∧
  (confirm w delete_prompt = true →
     ∀ client, session_for g w client →
       sdk_calls (events (run (delete_command g cl) w).2) =
         [delete_request g client (session_profiles w !! "vdc_href") (PStr n)
            (PBool (default_flag false (flag_values ["-f"; "--force"] [] cl)))]).
Proof.
  intros Hg Hcheck Hpos Hyes.
  rewrite (run_delete g w cl Hg), (parse_delete w cl n Hcheck Hpos), Hyes.
  destruct (confirm w delete_prompt).
  - change (kwarg (delete_kwargs n cl) "name") with (PStr n).
    change (kwarg (delete_kwargs n cl) "force") with
      (PBool (default_flag false (flag_values ["-f"; "--force"] [] cl))).
    destruct (delete_handler_log g w prompted (PStr n)
      (PBool (default_flag false (flag_values ["-f"; "--force"] [] cl))) Hg)
      as (rest & -> & Hprompts & _ & Hcalls).
    split; [done |]. split; [by rewrite prompts_app, Hprompts |].
    split; [done |]. intros _ client Hs.
    by rewrite sdk_calls_app, (Hcalls client Hs).
  - done.
Qed.

Lemma C1_orgvdc_delete_confirmation_witness :
  let cl := [Positional "direct-net1"] in
  head (events (run (delete_command direct cl) w_decline).2) = Some (EvPrompt delete_prompt) ∧
  prompts (events (run (delete_command direct cl) w_decline).2) = [delete_prompt] ∧
  (confirm w_decline delete_prompt = false →
     (run (delete_command direct cl) w_decline).1 = Exit 0 ∧
     exit_status (run (delete_command direct cl) w_decline).1 = 0 ∧
     events (run (delete_command direct cl) w_decline).2 = [EvPrompt delete_prompt] ∧
     sdk_calls (events (run (delete_command direct cl) w_decline).2) = []) ∧
  (confirm w_decline delete_prompt = true →
     ∀ client, session_for direct w_decline client →
       sdk_calls (events (run (delete_command direct cl) w_decline).2) =
         [delete_request direct client (session_profiles w_decline !! "vdc_href")
            (PStr "direct-net1")
            (PBool (default_flag false (flag_values ["-f"; "--force"] [] cl)))]).
Proof.
  apply (C1_orgvdc_delete_confirmation direct w_decline
           [Positional "direct-net1"] "direct-net1"); done.
Defined.

(** C1 as stated fails for [external delete]: the command declares no
    confirmation option, so even for a user who would answer no, nobody
    asks, and the delete call is made. *)
Lemma C1_external_delete_unconfirmed :
  prompts (events (run (delete_command external [Positional "external-net1"])
                     w_decline).2) = [] ∧
  sdk_calls (events (run (delete_command external [Positional "external-net1"])
                       w_decline).2) =
    [{| target := Platform "token";
        method := "delete_external_network";
        kwargs := [("name", PStr "external-net1")] |}] ∧
  (run (delete_command external [Positional "external-net1"]) w_decline).1 = Ret ().
Proof. repeat split. Qed.

(** The affirmative answer on [w_ok]: prompt, restoration, one delete. *)
Example direct_delete_confirmed :
  events (run (delete_command direct [Positional "direct-net1"]) w_ok).2 =
    [EvPrompt delete_prompt;
     EvRestoreSession true;
     EvSdk {| target := VDC "token" (Some "https://vcd/api/vdc/1");
              method := "delete_direct_orgvdc_network";
              kwargs := [("name", PStr "direct-net1"); ("force", PBool false)] |};
     EvStdout (OutElem a_network)].
Proof. reflexivity. Qed.

(** C8.  For [direct delete] and [isolated delete], on a command line
    click accepts: whether the user is asked depends on [--yes] alone (asked
    once when it is absent, whatever [--force] says; never when it is
    present).  The question belongs to parsing, which restores no session
    and calls no SDK method; a negative answer ends the command right there;
    otherwise the handler's session restoration and everything after it come
    later in the log, with no further prompt. *)
Theorem C8_prompt_by_yes_at_parse (g : Group) (w : World) (cl : list Token)
    (n : string) :
  g ≠ external →
  check_tokens delete_orgvdc_network_params cl = inr () →
  positionals cl = [n] →
  prompts (events (run (click_parse delete_orgvdc_network_params cl) w).2) =
    match flag_values ["-y"; "--yes"] [] cl with
    | [] => [delete_prompt]
    | _ :: _ => []
    end ∧
  restorations (events (run (click_parse delete_orgvdc_network_params cl) w).2) = [] ∧
  sdk_calls (events (run (click_parse delete_orgvdc_network_params cl) w).2) = [] ∧
  (flag_values ["-y"; "--yes"] [] cl = [] → confirm w delete_prompt = false →
     (run (click_parse delete_orgvdc_network_params cl) w).1 = Exit 0 ∧
     run (delete_command g cl) w = (Exit 0, prompted)) ∧
  ∃ rest,
    events (run (delete_command g cl) w).2 =
      events (run (click_parse delete_orgvdc_network_params cl) w).2 ++ rest ∧
    prompts rest = [] ∧
    (rest ≠ [] → head rest = Some (EvRestoreSession true)).
Proof.
  intros Hg Hcheck Hpos.
  rewrite (run_delete g w cl Hg), (parse_delete w cl n Hcheck Hpos).
  destruct (flag_values ["-y"; "--yes"] [] cl) as [|b given];
    [destruct (confirm w delete_prompt) |].
  - destruct (delete_handler_log g w prompted (kwarg (delete_kwargs n cl) "name")
      (kwarg (delete_kwargs n cl) "force") Hg) as (rest & Hlog & Hprompts & Hhead & _).
    repeat split; try done. exists rest. by rewrite Hlog.
  - repeat split; try done. exists []. done.
  - destruct (delete_handler_log g w initial (kwarg (delete_kwargs n cl) "name")
      (kwarg (delete_kwargs n cl) "force") Hg) as (rest & Hlog & Hprompts & Hhead & _).
    repeat split; try done. exists rest. by rewrite Hlog.
Qed.

Lemma C8_prompt_by_yes_at_parse_witness :
  let cl := [Positional "isolated-net1"; OptFlag "--force"] in
  prompts (events (run (click_parse delete_orgvdc_network_params cl) w_decline).2) =
    match flag_values ["-y"; "--yes"] [] cl with
    | [] => [delete_prompt]
    | _ :: _ => []
    end ∧
  restorations (events (run (click_parse delete_orgvdc_network_params cl) w_decline).2) = [] ∧
  sdk_calls (events (run (click_parse delete_orgvdc_network_params cl) w_decline).2) = [] ∧
  (flag_values ["-y"; "--yes"] [] cl = [] → confirm w_decline delete_prompt = false →
     (run (click_parse delete_orgvdc_network_params cl) w_decline).1 = Exit 0 ∧
     run (delete_command isolated cl) w_decline = (Exit 0, prompted)) ∧
  ∃ rest,
    events (run (delete_command isolated cl) w_decline).2 =
      events (run (click_parse delete_orgvdc_network_params cl) w_decline).2 ++ rest ∧
    prompts rest = [] ∧
    (rest ≠ [] → head rest = Some (EvRestoreSession true)).
Proof.
  apply (C8_prompt_by_yes_at_parse isolated w_decline
           [Positional "isolated-net1"; OptFlag "--force"] "isolated-net1"); done.
Defined.

(** [--force] alone still asks; [--yes] alone does not. *)
Example force_still_prompts :
  prompts (events (run (delete_command direct
             [Positional "direct-net1"; OptFlag "--force"]) w_ok).2) = [delete_prompt] ∧
  prompts (events (run (delete_command direct
             [Positional "direct-net1"; OptFlag "-f"]) w_ok).2) = [delete_prompt] ∧
  prompts (events (run (delete_command direct
             [Positional "direct-net1"; OptFlag "--yes"]) w_ok).2) = [] ∧
  prompts (events (run (delete_command direct
             [Positional "direct-net1"; OptFlag "-y"]) w_decline).2) = [].
Proof. repeat split. Qed.

(** ** Session restoration and the handlers *)

(** X1.  Without a session to restore, no leaf operation gets any further:
    the one thing on the error stream is the authentication failure, the
    exit status is not zero, no SDK call is made, nothing is printed. *)
Theorem no_session_no_call (op : M unit) (w : World) :
  leaf_operation op →
  session_token w = None →
  exit_status (run op w).1 ≠ 0 ∧
  stderr_writes (events (run op w).2) = [AuthFailure] ∧
  sdk_calls (events (run op w).2) = [] ∧
  stdout_writes (events (run op w).2) = [].
Proof.
  intros Hop Htoken.
  destruct Hop; unfold_handler; unfold_monad; cbn -[lookup];
    rewrite Htoken; cbn; done.
Qed.

Lemma no_session_no_call_witness :
  exit_status (run list_external_networks w_no_session).1 ≠ 0 ∧
  stderr_writes (events (run list_external_networks w_no_session).2) = [AuthFailure] ∧
  sdk_calls (events (run list_external_networks w_no_session).2) = [] ∧
  stdout_writes (events (run list_external_networks w_no_session).2) = [].
Proof.
  apply (no_session_no_call list_external_networks w_no_session).
  - exact op_external_list.
  - reflexivity.
Defined.

(** X2.  The four external handlers ask for no datacenter: with a token,
    whatever the profiles hold, they restore the session once with
    [vdc_required=False] and make exactly one SDK call, on the platform. *)
Theorem external_needs_no_vdc (op : M unit) (w : World) (client : Client) :
  platform_scoped op →
  session_token w = Some client →
  restorations (events (run op w).2) = [false] ∧
  ∃ c, sdk_calls (events (run op w).2) = [c] ∧ target c = Platform client.
Proof.
  intros Hop Htoken.
  destruct Hop; unfold_handler; unfold_monad; cbn -[lookup];
    rewrite Htoken; cbn -[lookup];
    repeat (case_match; simplify_eq; cbn -[lookup]); eauto.
Qed.

Lemma external_needs_no_vdc_witness :
  restorations (events (run (delete_external_network (PStr "external-net1"))
                          w_no_vdc).2) = [false] ∧
  ∃ c, sdk_calls (events (run (delete_external_network (PStr "external-net1"))
                            w_no_vdc).2) = [c] ∧
       target c = Platform "token".
Proof.
  apply (external_needs_no_vdc (delete_external_network (PStr "external-net1"))
           w_no_vdc "token").
  - apply ps_external_delete.
  - reflexivity.
Defined.

(** X3.  Whatever a leaf operation sends goes through the restored session:
    an SDK call in the log means the session had a token, and the call is
    either on the platform of that client or on the datacenter the profiles
    have selected, never on another one. *)
Theorem calls_use_the_session (op : M unit) (w : World) (c : SdkCall) :
  leaf_operation op →
  c ∈ sdk_calls (events (run op w).2) →
  ∃ client, session_token w = Some client ∧
    (target c = Platform client ∨
     ∃ href, session_profiles w !! "vdc_href" = Some href ∧
             target c = VDC client (Some href)).
Proof.
  intros Hop.
  destruct Hop; handler_cases;
    try (by intros ?%elem_of_nil);
    intros ->%list_elem_of_singleton; simplify_eq; cbn -[lookup] in *;
    repeat match goal with
           | H : bool_decide _ = false |- _ => apply bool_decide_eq_false in H
           end;
    (eexists; split; [done |]);
    first [ left; reflexivity
          | right;
            destruct (session_profiles w !! "vdc_href") as [href|] eqn:Hhref;
            [by exists href | done] ].
Qed.

Lemma calls_use_the_session_witness :
  ∃ client, session_token w_ok = Some client ∧
    (target {| target := VDC "token" (Some "https://vcd/api/vdc/1");
               method := "list_orgvdc_direct_networks"; kwargs := [] |} =
       Platform client ∨
     ∃ href, session_profiles w_ok !! "vdc_href" = Some href ∧
             target {| target := VDC "token" (Some "https://vcd/api/vdc/1");
                       method := "list_orgvdc_direct_networks"; kwargs := [] |} =
               VDC client (Some href)).
Proof.
  apply (calls_use_the_session list_direct_networks w_ok).
  - exact op_direct_list.
  - vm_compute. apply list_elem_of_here.
Defined.

(** ** What the server answers *)

(** X4.  When the server rejects the request, every leaf operation reports
    exactly the SDK's exception: it is the one message on the error stream,
    the exit status is not zero, nothing is printed, and the one call is not
    repeated. *)
Theorem rejection_is_reported (op : M unit) (w : World) (client : Client)
    (href : string) (e : Exc) :
  leaf_operation op →
  session_ok w client href →
  (∀ c, sdk_resource w c = inl e) →
  (∀ c, sdk_listing w c = inl e) →
  exit_status (run op w).1 ≠ 0 ∧
  stderr_writes (events (run op w).2) = [e] ∧
  stdout_writes (events (run op w).2) = [] ∧
  length (sdk_calls (events (run op w).2)) = 1%nat.
Proof.
  intros Hop [Htoken Hvdc] Hres Hlist.
  destruct Hop; unfold_handler; unfold_monad; cbn -[lookup];
    rewrite Htoken; cbn -[lookup]; rewrite ?Hvdc; cbn -[lookup];
    rewrite ?Hres, ?Hlist; cbn; done.
Qed.

Lemma rejection_is_reported_witness :
  exit_status (run (create_direct_network (PStr "n") (PStr "p") (PStr "d")
                      (PBool false)) w_rejecting).1 ≠ 0 ∧
  stderr_writes (events (run (create_direct_network (PStr "n") (PStr "p")
                   (PStr "d") (PBool false)) w_rejecting).2) =
    [RemoteRejected "conflict"] ∧
  stdout_writes (events (run (create_direct_network (PStr "n") (PStr "p")
                   (PStr "d") (PBool false)) w_rejecting).2) = [] ∧
  length (sdk_calls (events (run (create_direct_network (PStr "n") (PStr "p")
                   (PStr "d") (PBool false)) w_rejecting).2)) = 1%nat.
Proof.
  apply (rejection_is_reported _ w_rejecting "token" "https://vcd/api/vdc/1").
  - apply op_direct_create.
  - split; reflexivity.
  - reflexivity.
  - reflexivity.
Defined.

Lemma find_child_no_tag (ns tag : string) (x : Xml) :
  Forall (λ child, xml_tag child ≠ tag) (xml_children x) →
  find_child ns tag x = None.
Proof.
  unfold find_child. induction 1 as [|child rest Hchild _ IH]; [done |].
  cbn. apply String.eqb_neq in Hchild. rewrite Hchild.
  by rewrite andb_false_r.
Qed.

Ltac run_with_session Htoken Hvdc :=
  unfold_handler; unfold_monad;
  cbn -[lookup Tasks_Task_0 vcloud_Tasks_Task_0];
  rewrite Htoken; cbn -[lookup Tasks_Task_0 vcloud_Tasks_Task_0];
  rewrite ?Hvdc; cbn -[lookup Tasks_Task_0 vcloud_Tasks_Task_0].

(** X5.  The create and update handlers print the first task of what the
    server returns.  When the returned element has no [Tasks] child, the
    request has been sent all the same, but the command ends as a failure:
    an [AttributeError] for [Tasks] on the error stream, an exit status that
    is not zero, nothing printed. *)
Theorem result_without_tasks (op : M unit) reader outs (w : World)
    (client : Client) (href : string) (result : Xml) :
  reads_task op reader outs →
  session_ok w client href →
  (∀ c, sdk_resource w c = inr result) →
  Forall (λ child, xml_tag child ≠ "Tasks") (xml_children result) →
  exit_status (run op w).1 ≠ 0 ∧
  stderr_writes (events (run op w).2) = [AttributeError "Tasks"] ∧
  stdout_writes (events (run op w).2) = [] ∧
  length (sdk_calls (events (run op w).2)) = 1%nat.
Proof.
  intros Hop [Htoken Hvdc] Hres Hbare.
  destruct Hop; run_with_session Htoken Hvdc; rewrite Hres;
    unfold Tasks_Task_0, vcloud_Tasks_Task_0, getattr, getitem;
    rewrite (find_child_no_tag _ "Tasks" result Hbare); cbn; done.
Qed.

Lemma result_without_tasks_witness :
  exit_status (run (update_external_network (PStr "external-net1") PNone PNone)
                 w_no_task).1 ≠ 0 ∧
  stderr_writes (events (run (update_external_network (PStr "external-net1")
                   PNone PNone) w_no_task).2) = [AttributeError "Tasks"] ∧
  stdout_writes (events (run (update_external_network (PStr "external-net1")
                   PNone PNone) w_no_task).2) = [] ∧
  length (sdk_calls (events (run (update_external_network (PStr "external-net1")
                   PNone PNone) w_no_task).2)) = 1%nat.
Proof.
  apply (result_without_tasks _ _ _ w_no_task "token" "https://vcd/api/vdc/1"
           bare_network (rt_external_update _ _ _)).
  - split; reflexivity.
  - reflexivity.
  - constructor.
Defined.

(** X6.  When the server's answer has its task, the create and update
    handlers return normally: [direct create] and [isolated create] print
    the task and nothing else, [external create] and [external update]
    print the task and then their confirmation; the error stream stays
    empty and one SDK call was made. *)
Theorem task_is_printed (op : M unit) reader outs (w : World)
    (client : Client) (href : string) (result task : Xml) :
  reads_task op reader outs →
  session_ok w client href →
  (∀ c, sdk_resource w c = inr result) →
  reader result = inr task →
  (run op w).1 = Ret () ∧
  stdout_writes (events (run op w).2) = outs task ∧
  stderr_writes (events (run op w).2) = [] ∧
  length (sdk_calls (events (run op w).2)) = 1%nat.
Proof.
  intros Hop [Htoken Hvdc] Hres Htask.
  destruct Hop; run_with_session Htoken Hvdc; rewrite Hres;
    cbn -[lookup Tasks_Task_0 vcloud_Tasks_Task_0]; rewrite Htask; cbn; done.
Qed.

Lemma task_is_printed_witness :
  (run (create_external_network (PStr "external-net1") (PStr "vc1")
          (PTuple ["pg1"]) (PStr "10.0.0.1") (PStr "255.255.255.0")
          (PTuple ["10.0.0.2-10.0.0.9"]) (PStr EmptyString) PNone PNone PNone)
       w_ok).1 = Ret () ∧
  stdout_writes (events (run (create_external_network (PStr "external-net1")
          (PStr "vc1") (PTuple ["pg1"]) (PStr "10.0.0.1") (PStr "255.255.255.0")
          (PTuple ["10.0.0.2-10.0.0.9"]) (PStr EmptyString) PNone PNone PNone)
       w_ok).2) =
    [OutElem a_task; OutStr "External network created successfully."] ∧
  stderr_writes (events (run (create_external_network (PStr "external-net1")
          (PStr "vc1") (PTuple ["pg1"]) (PStr "10.0.0.1") (PStr "255.255.255.0")
          (PTuple ["10.0.0.2-10.0.0.9"]) (PStr EmptyString) PNone PNone PNone)
       w_ok).2) = [] ∧
  length (sdk_calls (events (run (create_external_network (PStr "external-net1")
          (PStr "vc1") (PTuple ["pg1"]) (PStr "10.0.0.1") (PStr "255.255.255.0")
          (PTuple ["10.0.0.2-10.0.0.9"]) (PStr EmptyString) PNone PNone PNone)
       w_ok).2)) = 1%nat.
Proof.
  apply (task_is_printed _ _ _ w_ok "token" "https://vcd/api/vdc/1"
           a_network a_task (rt_external_create _ _ _ _ _ _ _ _ _ _)).
  - split; reflexivity.
  - reflexivity.
  - reflexivity.
Defined.

(** X7.  The delete handlers do not look into what the server returns:
    whatever element comes back, with or without tasks, is printed as it
    is ([external delete] adds its confirmation), the command returns
    normally and the error stream stays empty. *)
Theorem delete_prints_any_result (op : M unit) outs (w : World)
    (client : Client) (href : string) (result : Xml) :
  prints_result op outs →
  session_ok w client href →
  (∀ c, sdk_resource w c = inr result) →
  (run op w).1 = Ret () ∧
  stdout_writes (events (run op w).2) = outs result ∧
  stderr_writes (events (run op w).2) = [] ∧
  length (sdk_calls (events (run op w).2)) = 1%nat.
Proof.
  intros Hop [Htoken Hvdc] Hres.
  destruct Hop; run_with_session Htoken Hvdc; rewrite Hres; cbn; done.
Qed.

Lemma delete_prints_any_result_witness :
  (run (delete_external_network (PStr "external-net1")) w_no_task).1 = Ret () ∧
  stdout_writes (events (run (delete_external_network (PStr "external-net1"))
                           w_no_task).2) =
    [OutElem bare_network; OutStr "External network deleted successfully."] ∧
  stderr_writes (events (run (delete_external_network (PStr "external-net1"))
                           w_no_task).2) = [] ∧
  length (sdk_calls (events (run (delete_external_network (PStr "external-net1"))
                               w_no_task).2)) = 1%nat.
Proof.
  apply (delete_prints_any_result _ _ w_no_task "token" "https://vcd/api/vdc/1"
           bare_network (pr_external_delete _)).
  - split; reflexivity.
  - reflexivity.
Defined.

(** ** Command lines the parser turns away *)

(** A command that declares no option rejects every option token; what it
    lets through is positional words only. *)
Lemma check_tokens_positional_only (params : list Param) (cl : list Token) :
  (∀ o, existsb (takes_value o) params = false ∧
        existsb (is_flag o) params = false) →
  check_tokens params cl = inr () →
  cl = Positional <$> positionals cl.
Proof.
  intros Hnone. induction cl as [|t cl IH]; [done |].
  destruct t as [v|o v|o]; cbn.
  - intros Hcl. f_equal. by apply IH.
  - destruct (Hnone o) as [-> ->]. done.
  - destruct (Hnone o) as [-> ->]. done.
Qed.

(** A command that declares no option, when it is not asked for help, ends
    in a usage error on every command line its arguments do not account
    for. *)
Lemma arguments_only_rejects (params : list Param) (w : World)
    (cl : list Token) :
  (∀ o, existsb (takes_value o) params = false ∧
        existsb (is_flag o) params = false) →
  flag_values (help_option_names w) [] cl = [] →
  (check_tokens params cl = inr () →
   cl = Positional <$> positionals cl →
   ∃ u, process params cl (positionals cl) [] w initial =
          (Raise (UsageError u), initial)) →
  ∃ u, run (click_parse params cl) w = (Raise (UsageError u), initial).
Proof.
  intros Hnone Hhelp Hprocess.
  destruct (click_parse_cases params cl w)
    as [Hrun | [[Hasked _] | [Hcheck Hrun]]]; [done | |].
  - by apply (help_not_asked params) in Hhelp.
  - rewrite Hrun. apply Hprocess; [done |].
    by apply (check_tokens_positional_only params).
Qed.

(** X8.  The three [list] commands declare no parameter: unless it asks
    for the help page, any command line that is not empty (an extra word or
    any option) is a usage error raised before the session is touched. *)
Theorem list_takes_no_arguments (g : Group) (w : World) (cl : list Token) :
  cl ≠ [] →
  flag_values (help_option_names w) [] cl = [] →
  ∃ u, run (list_command g cl) w = (Raise (UsageError u), initial).
Proof.
  intros Hcl Hhelp.
  destruct (arguments_only_rejects [] w cl) as [u Hparse]; [done | done | |].
  - intros _ Hwords. cbn.
    destruct (positionals cl) as [|a args]; [by rewrite Hwords in Hcl |].
    by exists (UnexpectedArgument a).
  - exists u. destruct g; unfold list_command, external_list, direct_list,
      isolated_list; by rewrite run_bind, Hparse.
Qed.

Lemma list_takes_no_arguments_witness :
  ∃ u, run (list_command isolated [OptFlag "--yes"]) w_ok =
         (Raise (UsageError u), initial).
Proof.
  apply (list_takes_no_arguments isolated w_ok [OptFlag "--yes"]).
  - discriminate.
  - reflexivity.
Defined.

(** X9.  [external delete] declares only the name argument: unless it
    asks for the help page, every command line other than exactly one word
    (no name, a second word, or any option, [--yes] and [--force]
    included) is a usage error raised before the session is touched. *)
Theorem external_delete_takes_one_name (w : World) (cl : list Token) :
  (∀ n, cl ≠ [Positional n]) →
  flag_values (help_option_names w) [] cl = [] →
  ∃ u, run (external_delete cl) w = (Raise (UsageError u), initial).
Proof.
  intros Hcl Hhelp.
  destruct (arguments_only_rejects delete_external_network_params w cl)
    as [u Hparse]; [done | done | |].
  - intros _ Hwords. cbn.
    destruct (positionals cl) as [|a [|b args]]; [eauto | | eauto].
    by destruct (Hcl a).
  - exists u. unfold external_delete. by rewrite run_bind, Hparse.
Qed.

Lemma external_delete_takes_one_name_witness :
  ∃ u, run (external_delete [Positional "external-net1"; OptFlag "--yes"]) w_ok =
         (Raise (UsageError u), initial).
Proof.
  apply (external_delete_takes_one_name w_ok
           [Positional "external-net1"; OptFlag "--yes"]).
  - intros n. discriminate.
  - reflexivity.
Defined.

Lemma given_single_not_missing (given : list string) :
  given ≠ [] →
  value_is_missing false (option_value false PNone given) = false.
Proof. intros [v Hv]%last_is_Some. unfold option_value. by rewrite Hv. Qed.

Lemma given_multiple_not_missing (given : list string) :
  given ≠ [] →
  value_is_missing true (option_value true (PTuple []) given) = false.
Proof. by destruct given. Qed.

Ltac required_given :=
  repeat match goal with
         | H : positionals _ = _ |- _ => rewrite H
         | H : value_is_missing true _ = false |- _ =>
             apply required_multiple_given in H
         | H : value_is_missing false (option_value false PNone ?g) = false |- _ =>
             assert (g ≠ []) by (by intros Hg; rewrite Hg in H); clear H
         end.

(** A [create] command line that parsing lets through has the right number
    of positional words and every required option. *)
Lemma parse_create_accepted (g : Group) (w : World) (cl : list Token) kw s :
  run (click_parse (create_params g) cl) w = (Ret kw, s) →
  length (positionals cl) = create_arity g ∧
  Forall (λ opts, option_values opts cl ≠ []) (create_required g).
Proof.
  intros H. destruct g; unfold create_params in H.
  - unfold create_external_network_params in H. parse_cases H; try done.
    required_given. split; [done |]. by repeat constructor.
  - unfold create_direct_network_params in H. parse_cases H; try done.
    required_given. split; [done |]. by repeat constructor.
  - unfold create_isolated_network_params in H. parse_cases H; try done.
    required_given. split; [done |]. by repeat constructor.
Qed.

(** X10.  A [create] command line with the wrong number of positional words
    (one name; name and vCenter for [external create]) or without one of the
    required options ([--parent]; [--gateway] and [--netmask]; for
    [external create] also [--port-group] and [--ip-range]) is, unless it
    asks for the help page, a usage error raised before the session is
    touched. *)
Theorem create_rejects_incomplete (g : Group) (w : World) (cl : list Token) :
  length (positionals cl) ≠ create_arity g ∨
  Exists (λ opts, option_values opts cl = []) (create_required g) →
  flag_values (help_option_names w) [] cl = [] →
  ∃ u, run (create_command g cl) w = (Raise (UsageError u), initial).
Proof.
  intros Hbad Hhelp.
  destruct (run (click_parse (create_params g) cl) w) as [r s] eqn:Hparse.
  destruct (parse_create g w cl r s Hparse)
    as [[-> [u ->]] | [(_ & _ & Hasked) | (-> & -> & _)]].
  - exists u. destruct g; unfold create_params in Hparse;
      unfold create_command, external_create, direct_create, isolated_create;
      by rewrite run_bind, Hparse.
  - by apply (help_not_asked (create_params g)) in Hhelp.
  - destruct (parse_create_accepted g w cl _ _ Hparse) as [Harity Hgiven].
    destruct Hbad as [Hbad | Hbad]; [done |].
    apply Exists_exists in Hbad as (opts & Hin & Hempty).
    by destruct (proj1 (Forall_forall _ _) Hgiven opts Hin).
Qed.

Lemma create_rejects_incomplete_witness :
  ∃ u, run (create_command direct [Positional "direct-net1"]) w_ok =
         (Raise (UsageError u), initial).
Proof.
  apply (create_rejects_incomplete direct w_ok [Positional "direct-net1"]).
  - right. apply Exists_cons_hd. reflexivity.
  - reflexivity.
Defined.

(** X11.  Conversely, a [create] command line made of declared options,
    the right number of positional words and every required option is
    accepted whatever else it holds: parsing touches nothing and yields the
    parameters read off the command line. *)
Theorem create_accepts_complete (g : Group) (w : World) (cl : list Token) :
  check_tokens (create_params g) cl = inr () →
  length (positionals cl) = create_arity g →
  Forall (λ opts, option_values opts cl ≠ []) (create_required g) →
  run (click_parse (create_params g) cl) w = (Ret (create_kwargs g cl), initial).
Proof.
  intros Hcheck Harity Hgiven.
  rewrite (click_parse_plain _ _ _ Hcheck). unfold create_kwargs.
  destruct g; cbn in Harity, Hgiven;
    repeat match goal with
           | H : Forall _ (_ :: _) |- _ =>
               let Hg := fresh "Hg" in
               apply Forall_cons in H as [Hg ?];
               pose proof (given_single_not_missing _ Hg);
               pose proof (given_multiple_not_missing _ Hg);
               clear Hg
           end;
    [destruct (positionals cl) as [|n [|vc [|]]] eqn:Hpos
    | destruct (positionals cl) as [|n [|]] eqn:Hpos
    | destruct (positionals cl) as [|n [|]] eqn:Hpos]; try done;
    repeat (cbn -[option_values flag_values positionals option_value
                  value_is_missing flag_value default_flag];
            rewrite ?flag_value_no_prompt;
            unfold mbind, M_bind, mret, M_ret, raise;
            repeat match goal with
                   | H : value_is_missing _ _ = false |- _ =>
                       rewrite H; clear H
                   end).
  all: by rewrite ?option_value_multiple.
Qed.

Lemma create_accepts_complete_witness :
  run (click_parse (create_params external) two_ranges) w_ok =
    (Ret (create_kwargs external two_ranges), initial).
Proof.
  apply (create_accepts_complete external w_ok two_ranges).
  - reflexivity.
  - reflexivity.
  - repeat constructor; discriminate.
Defined.

(** ** More about the other commands *)

Lemma default_flag_given (on : list string) (cl : list Token) :
  default_flag false (flag_values on [] cl) = true ↔ flag_values on [] cl ≠ [].
Proof.
  unfold default_flag.
  destruct (last (flag_values on [] cl)) as [b|] eqn:Hlast.
  - apply flag_values_on_only in Hlast as Hb. subst b.
    split; [| done]. intros _ Hnil. by rewrite Hnil in Hlast.
  - apply last_None in Hlast. by rewrite Hlast.
Qed.

(** X12.  [direct delete] and [isolated delete] with [-y] or [--yes] ask
    nothing, whatever the user would have answered: the command goes
    straight on, and on a session that restores it makes one SDK call, the
    delete of the named network, with [force=True] exactly when [-f] or
    [--force] is on the command line. *)
Theorem yes_skips_the_prompt (g : Group) (w : World) (cl : list Token)
    (n : string) (client : Client) :
  g ≠ external →
  check_tokens delete_orgvdc_network_params cl = inr () →
  positionals cl = [n] →
  (∃ o, o ∈ ["-y"; "--yes"] ∧ OptFlag o ∈ cl) →
  session_for g w client →
  prompts (events (run (delete_command g cl) w).2) = [] ∧
  ∃ force,
    sdk_calls (events (run (delete_command g cl) w).2) =
      [delete_request g client (session_profiles w !! "vdc_href") (PStr n)
         (PBool force)] ∧
    (force = true ↔ ∃ o, o ∈ ["-f"; "--force"] ∧ OptFlag o ∈ cl).
Proof.
  intros Hg Hcheck Hpos Hyes%flag_given Hs.
  rewrite (run_delete g w cl Hg), (parse_delete w cl n Hcheck Hpos).
  destruct (flag_values ["-y"; "--yes"] [] cl) as [|b given]; [done |].
  change (kwarg (delete_kwargs n cl) "name") with (PStr n).
  change (kwarg (delete_kwargs n cl) "force") with
    (PBool (default_flag false (flag_values ["-f"; "--force"] [] cl))).
  destruct (delete_handler_log g w initial (PStr n)
    (PBool (default_flag false (flag_values ["-f"; "--force"] [] cl))) Hg)
    as (rest & Hlog & Hprompts & _ & Hcalls).
  rewrite Hlog. cbn [initial events app]. split; [done |].
  eexists. split; [by apply Hcalls |].
  by rewrite default_flag_given, flag_given.
Qed.

Lemma yes_skips_the_prompt_witness :
  let cl := [Positional "direct-net1"; OptFlag "-y"; OptFlag "--force"] in
  prompts (events (run (delete_command direct cl) w_decline).2) = [] ∧
  ∃ force,
    sdk_calls (events (run (delete_command direct cl) w_decline).2) =
      [delete_request direct "token" (session_profiles w_decline !! "vdc_href")
         (PStr "direct-net1") (PBool force)] ∧
    (force = true ↔ ∃ o, o ∈ ["-f"; "--force"] ∧ OptFlag o ∈ cl).
Proof.
  apply (yes_skips_the_prompt direct w_decline
           [Positional "direct-net1"; OptFlag "-y"; OptFlag "--force"]
           "direct-net1" "token").
  - done.
  - reflexivity.
  - reflexivity.
  - exists "-y". split; [apply list_elem_of_here |].
    apply list_elem_of_further, list_elem_of_here.
  - split; [reflexivity | intros _; vm_compute; eauto].
Defined.

(** The last occurrence of a single-valued option is the one that counts. *)
Lemma last_occurrence_wins (opts : list string) (default : PVal)
    (cl : list Token) (o v : string) :
  o ∈ opts →
  option_value false default (option_values opts (cl ++ [OptValue o v])) = PStr v.
Proof.
  intros Ho. rewrite option_values_app. unfold option_values at 2. cbn.
  assert (named opts o = true) as ->.
  { unfold named. apply existsb_exists. exists o.
    split; [by apply list_elem_of_In | apply String.eqb_refl]. }
  unfold option_value. by rewrite last_snoc.
Qed.

(** X13.  [external update], on a command line click accepts and with a
    token: one SDK call that carries the network's name, the new name and
    the new description, each [None] when its option is absent; when
    [--name] (or [-n]) is repeated, the last one is the new name. *)
Theorem update_forwards_arguments (w : World) (cl : list Token) (n : string)
    (client : Client) :
  check_tokens update_external_network_params cl = inr () →
  positionals cl = [n] →
  session_token w = Some client →
  sdk_calls (events (run (external_update cl) w).2) = [update_request client n cl] ∧
  (option_values ["-n"; "--name"] cl = [] →
     kwarg (kwargs (update_request client n cl)) "new_name" = PNone) ∧
  (∀ o v, o ∈ ["-n"; "--name"] →
     kwarg (kwargs (update_request client n (cl ++ [OptValue o v]))) "new_name" =
       PStr v).
Proof.
  intros Hcheck Hpos Htoken.
  split; [| split].
  - unfold external_update. rewrite run_bind, (parse_update w cl n Hcheck Hpos).
    cbn [kwarg String.eqb Ascii.eqb Bool.eqb].
    unfold update_external_network, update_request. unfold_monad.
    cbn -[lookup option_value]. rewrite Htoken. cbn -[lookup option_value].
    repeat (case_match; simplify_eq; cbn -[option_value]); done.
  - intros Hname. unfold update_request. cbn [kwargs kwarg String.eqb Ascii.eqb Bool.eqb].
    by rewrite Hname.
  - intros o v Ho. unfold update_request. cbn [kwargs kwarg String.eqb Ascii.eqb Bool.eqb].
    by apply last_occurrence_wins.
Qed.

Lemma update_forwards_arguments_witness :
  let cl := [Positional "external-net1"; OptValue "-n" "a"; OptValue "--name" "b"] in
  sdk_calls (events (run (external_update cl) w_ok).2) =
    [update_request "token" "external-net1" cl] ∧
  (option_values ["-n"; "--name"] cl = [] →
     kwarg (kwargs (update_request "token" "external-net1" cl)) "new_name" = PNone) ∧
  (∀ o v, o ∈ ["-n"; "--name"] →
     kwarg (kwargs (update_request "token" "external-net1" (cl ++ [OptValue o v])))
       "new_name" = PStr v).
Proof.
  apply (update_forwards_arguments w_ok
           [Positional "external-net1"; OptValue "-n" "a"; OptValue "--name" "b"]
           "external-net1" "token"); reflexivity.
Defined.

(** X14.  On a [create] command line that click accepts and a session that
    restores, the one SDK call carries [None] for each option without a
    default that the command line leaves out: the DNS servers and suffix,
    and for [isolated create] the static range, the lease times and the
    DHCP range. *)
Theorem omitted_options_are_none (g : Group) (w : World) (cl : list Token)
    kw s0 (client : Client) (field dest : string) (opts : list string) :
  (field, dest, opts) ∈ create_optional g →
  run (click_parse (create_params g) cl) w = (Ret kw, s0) →
  session_for g w client →
  option_values opts cl = [] →
  kwarg kw dest = PNone ∧
  ∃ c, sdk_calls (events (run (create_command g cl) w).2) = [c] ∧
       kwarg (kwargs c) field = PNone.
Proof.
  intros Hin Hparse Hs Hnone.
  destruct (create_calls g w cl kw s0 client Hparse Hs) as [-> Hcalls].
  rewrite Hcalls.
  assert (kwarg (create_kwargs g cl) dest = PNone ∧
          kwarg (kwargs (create_request g client (session_profiles w !! "vdc_href")
                           (create_kwargs g cl))) field = PNone) as [Hkw Hfield];
    [| eauto].
  clear Hparse Hcalls Hs.
  destruct g; cbn in Hin;
    repeat (apply elem_of_cons in Hin as [Heq | Hin];
            [injection Heq as -> -> ->;
             unfold create_kwargs, create_request;
             cbn [kwargs kwarg String.eqb Ascii.eqb Bool.eqb];
             by rewrite Hnone |]);
    by apply elem_of_nil in Hin.
Qed.

Lemma omitted_options_are_none_witness :
  let cl := [Positional "isolated-net1"; OptValue "--gateway" "192.168.1.1";
             OptValue "--netmask" "255.255.255.0"] in
  kwarg (create_kwargs isolated cl) "dhcp_ip_range_end" = PNone ∧
  ∃ c, sdk_calls (events (run (create_command isolated cl) w_ok).2) = [c] ∧
       kwarg (kwargs c) "dhcp_ip_range_end" = PNone.
Proof.
  apply (omitted_options_are_none isolated w_ok _ _ initial "token"
           "dhcp_ip_range_end" "dhcp_ip_range_end" ["--dhcp-ip-range-end"]).
  - vm_compute. do 8 apply list_elem_of_further. apply list_elem_of_here.
  - reflexivity.
  - split; [reflexivity | intros _; vm_compute; eauto].
  - reflexivity.
Defined.

(** [net.get(key)] is [None] when the element has no such attribute. *)
Lemma xml_get_absent (x : Xml) (key : string) :
  Forall (λ kv, kv.1 ≠ key) (xml_attrib x) → xml_get x key = PNone.
Proof.
  unfold xml_get. induction 1 as [|kv rest Hkv _ IH]; [done |].
  cbn. apply String.eqb_neq in Hkv. by rewrite Hkv.
Qed.

(** X15.  A network that the server reports without a [name] attribute
    does not break a listing: its record is [{'name': None}], at its place
    in the list. *)
Theorem unnamed_network_is_listed (nets : list Xml) (i : nat) (net : Xml) :
  nets !! i = Some net →
  Forall (λ kv, kv.1 ≠ "name") (xml_attrib net) →
  name_records nets !! i = Some {[ "name" := PNone ]}.
Proof.
  intros Hi Hattrib.
  by rewrite name_records_lookup, Hi, <- (xml_get_absent net "name" Hattrib).
Qed.

Lemma unnamed_network_is_listed_witness :
  name_records [a_network; Element NSMAP_vcloud "OrgVdcNetwork" [("id", "7")] []]
    !! 1%nat = Some {[ "name" := PNone ]}.
Proof.
  apply (unnamed_network_is_listed _ 1%nat
           (Element NSMAP_vcloud "OrgVdcNetwork" [("id", "7")] [])).
  - reflexivity.
  - repeat constructor. discriminate.
Defined.

(** ** Asking for help *)

Lemma click_parse_help (params : list Param) (cl : list Token) (w : World) :
  check_tokens
    (params ++ [help_option (help_names params (help_option_names w))]) cl = inr () →
  flag_values (help_names params (help_option_names w)) [] cl ≠ [] →
  run (click_parse params cl) w = (Exit 0, helped).
Proof.
  intros Hcheck Hasked. unfold run, click_parse, world, lift.
  unfold mbind at 1 2 3, M_bind.
  rewrite Hcheck. unfold mret, M_ret. cbv beta iota. rewrite process_help.
  by destruct (flag_values (help_names params (help_option_names w)) [] cl).
Qed.

(** X16.  Every command has click's help option, under the names of the
    context that no declared option uses.  On a command line of declared
    options and help names, one help name is enough: the command prints its
    help page and leaves with status 0, before any required parameter is
    missed, any question asked, the session restored or the SDK called. *)
Theorem help_comes_first (params : list Param) (command : list Token → M unit)
    (w : World) (cl : list Token) :
  click_command params command →
  check_tokens
    (params ++ [help_option (help_names params (help_option_names w))]) cl = inr () →
  (∃ o, o ∈ help_names params (help_option_names w) ∧ OptFlag o ∈ cl) →
  run (command cl) w = (Exit 0, helped) ∧
  exit_status (run (command cl) w).1 = 0 ∧
  prompts (events (run (command cl) w).2) = [] ∧
  restorations (events (run (command cl) w).2) = [] ∧
  sdk_calls (events (run (command cl) w).2) = [] ∧
  stdout_writes (events (run (command cl) w).2) = [OutHelp].
Proof.
  intros Hcommand Hcheck Hasked%flag_given.
  assert (run (command cl) w = (Exit 0, helped)) as ->; [| done].
  pose proof (click_parse_help params cl w Hcheck Hasked) as Hparse.
  destruct Hcommand; unfold direct_create, isolated_create, external_create,
    external_list, direct_list, isolated_list, direct_delete, isolated_delete,
    external_delete, external_update; by rewrite run_bind, Hparse.
Qed.

Lemma help_comes_first_witness :
  run (direct_delete [OptFlag "-h"]) w_decline = (Exit 0, helped) ∧
  exit_status (run (direct_delete [OptFlag "-h"]) w_decline).1 = 0 ∧
  prompts (events (run (direct_delete [OptFlag "-h"]) w_decline).2) = [] ∧
  restorations (events (run (direct_delete [OptFlag "-h"]) w_decline).2) = [] ∧
  sdk_calls (events (run (direct_delete [OptFlag "-h"]) w_decline).2) = [] ∧
  stdout_writes (events (run (direct_delete [OptFlag "-h"]) w_decline).2) = [OutHelp].
Proof.
  apply (help_comes_first delete_orgvdc_network_params direct_delete w_decline
           [OptFlag "-h"] cc_direct_delete).
  - reflexivity.
  - exists "-h". split; [vm_compute; apply list_elem_of_here | apply list_elem_of_here].
Defined.

(** An undeclared option is the tokenizer's error even beside a help name;
    a help name beside the name of the network spares the question. *)
Example help_and_the_tokenizer :
  run (direct_delete [OptFlag "--bogus"; OptFlag "--help"]) w_decline =
    (Raise (UsageError (NoSuchOption "--bogus")), initial) ∧
  run (direct_delete [Positional "direct-net1"; OptFlag "--help"]) w_decline =
    (Exit 0, helped).
Proof. split; reflexivity. Qed.
